(** * Mercado Pago MCP server (src/src/index.ts): authenticated client
      pipeline, tool dispatcher and tool handlers.

    The TypeScript program is embedded shallowly.  Asynchronous functions
    become state-passing functions over a [World]: the private fields of
    [AuthService] and [DemoMercadoPagoServer], the answers the two upstream
    services are going to give (consumed one per request, in order), and the
    list of network-visible actions performed so far.  A rejected promise is
    a result [inl e]; a fulfilled one is [inr v].

    The [Logger] calls and [console.log] write to the standard streams only
    and never change control flow or the fields modelled here; they are left
    out of the embedding, and so are the two interceptors that only log. *)

From Stdlib Require Import List String Ascii Bool Arith Lia QArith.
From Stdlib Require Import DecimalString Btauto.
From Equations Require Import Equations.
Import ListNotations.
Close Scope Q_scope.
Local Open Scope list_scope.
Local Open Scope string_scope.

Set Implicit Arguments.
Local Set Warnings "-register-all".

(** ** JavaScript values and conversions *)

(** Line feed, as written [\n] in the template literals of the source. *)
Definition LF : string := String (ascii_of_nat 10) EmptyString.

(** Values that reach the program from the wire are parsed JSON.  The
    JavaScript value [undefined] (a property that is not there) is the
    [None] of [option Json]. *)
Inductive Json : Type :=
| JNull
| JBool (b : bool)
| JNum (q : Q)
| JStr (s : string)
| JArr (items : list Json)
| JObj (fields : list (string * Json)).

Definition JsValue : Type := option Json.

(** [n.toString()] for a non-negative integer such as [results.length] or an
    HTTP status. *)
Definition string_of_nat (n : nat) : string :=
  NilEmpty.string_of_uint (Nat.to_uint n).

(** ToBoolean: the test performed by [if (v)], [!v], [a && b], [a || b]. *)
Definition truthy_string (s : string) : bool :=
  match s with
  | EmptyString => false
  | String _ _ => true
  end.

Definition truthy (v : JsValue) : bool :=
  match v with
  | None => false
  | Some JNull => false
  | Some (JBool b) => b
  | Some (JNum q) => negb (Qeq_bool q 0)
  | Some (JStr s) => truthy_string s
  | Some (JArr _) => true
  | Some (JObj _) => true
  end.

(** [a || b] on values. *)
Definition js_or (a b : JsValue) : JsValue := if truthy a then a else b.

Fixpoint assoc (k : string) (fields : list (string * Json)) : JsValue :=
  match fields with
  | [] => None
  | (k', v) :: rest => if String.eqb k k' then Some v else assoc k rest
  end.

(** [array.join(sep)] on strings. *)
Fixpoint join (sep : string) (parts : list string) : string :=
  match parts with
  | [] => EmptyString
  | [p] => p
  | p :: rest => p ++ sep ++ join sep rest
  end.

(** [typeof v]. *)
Definition typeof (v : JsValue) : string :=
  match v with
  | None => "undefined"
  | Some JNull => "object"
  | Some (JBool _) => "boolean"
  | Some (JNum _) => "number"
  | Some (JStr _) => "string"
  | Some (JArr _) => "object"
  | Some (JObj _) => "object"
  end.

(** [array.includes(v)] for an array of string constants: only a string
    equal to one of them is included. *)
Definition includes (candidates : list string) (v : JsValue) : bool :=
  match v with
  | Some (JStr s) => existsb (String.eqb s) candidates
  | _ => false
  end.

(** ** Requests, responses and errors *)

Inductive Method : Type := GET | POST.

(** The request configuration handed to axios.  [__isRetry] is the flag the
    source adds to [InternalAxiosRequestConfig]; a missing flag reads as
    falsy and is [false] here. *)
Record Config : Type := mkConfig {
  method : Method;
  url : string;
  params : list (string * Json);
  data : JsValue;
  Authorization : option string;
  __isRetry : bool
}.

Record Response : Type := mkResponse {
  status : nat;
  response_data : Json;
  response_config : Config
}.

Inductive ErrorCode : Type := InvalidParams | MethodNotFound | InternalError.

(** What a JavaScript [throw] can carry in this program. *)
Inductive Exn : Type :=
| AxiosError (message : string) (response : option (nat * Json))
             (config : option Config)
| McpError (code : ErrorCode) (message : string)
| TypeError (message : string).

Definition error_code_number (c : ErrorCode) : string :=
  match c with
  | InvalidParams => "-32602"
  | MethodNotFound => "-32601"
  | InternalError => "-32603"
  end.

(** [error.message].  The SDK's [McpError] constructor prefixes the message
    it is given with the numeric code. *)
Definition exn_message (e : Exn) : string :=
  match e with
  | AxiosError m _ _ => m
  | McpError c m => "MCP error " ++ error_code_number c ++ ": " ++ m
  | TypeError m => m
  end.

(** [axios.isAxiosError(error)]. *)
Definition isAxiosError (e : Exn) : bool :=
  match e with
  | AxiosError _ _ _ => true
  | _ => false
  end.

(** ** The world *)

Record AuthResponse : Type := mkAuthResponse {
  access_token : string;
  token_type : string;
  expires_in : nat;
  scope : string
}.

(** Answer of the identity endpoint to one exchange: a 2xx body, or a
    failure of which only the message is read by the program. *)
Inductive AuthOutcome : Type :=
| AuthGranted (body : AuthResponse)
| AuthRefused (message : string).

(** Answer of the API to one request. *)
Inductive HttpOutcome : Type :=
| Responded (status : nat) (body : Json)
| NoResponse (message : string).

Inductive Event : Type :=
| EvTokenExchange
| EvTokenCleared
| EvApiRequest (sent : Config).

Record World : Type := mkWorld {
  accessToken : option string;
  requestCount : nat;
  authUpstream : list AuthOutcome;
  apiUpstream : list HttpOutcome;
  trace : list Event
}.

Definition emit (e : Event) (w : World) : World :=
  mkWorld (accessToken w) (requestCount w) (authUpstream w) (apiUpstream w)
          (trace w ++ [e]).

Definition set_accessToken (t : option string) (w : World) : World :=
  mkWorld t (requestCount w) (authUpstream w) (apiUpstream w) (trace w).

(** ** Computations that may throw *)

Definition M (A : Type) : Type := World -> (Exn + A) * World.

Definition ret {A} (a : A) : M A := fun w => (inr a, w).

Definition throw {A} (e : Exn) : M A := fun w => (inl e, w).

Definition bind {A B} (m : M A) (k : A -> M B) : M B :=
  fun w =>
    match m w with
    | (inl e, w') => (inl e, w')
    | (inr a, w') => k a w'
    end.

(** [try { body } catch (e) { handler(e) }]. *)
Definition try_catch {A} (body : M A) (handler : Exn -> M A) : M A :=
  fun w =>
    match body w with
    | (inl e, w') => handler e w'
    | (inr a, w') => (inr a, w')
    end.

Notation "x <- m ;; k" := (bind m (fun x => k))
  (at level 61, m at next level, right associativity).
Notation "m ;;; k" := (bind m (fun _ => k))
  (at level 61, right associativity).

(** ** AuthService *)

(** [axios.post('https://api.mercadolibre.com/oauth/token', ...)]: the
    global axios instance, which has no interceptors. *)
Definition oauthTokenRequest : M AuthResponse :=
  fun w =>
    let w1 := emit EvTokenExchange w in
    match authUpstream w1 with
    | AuthGranted body :: rest =>
        (inr body,
         mkWorld (accessToken w1) (requestCount w1) rest (apiUpstream w1)
                 (trace w1))
    | AuthRefused message :: rest =>
        (inl (AxiosError message None None),
         mkWorld (accessToken w1) (requestCount w1) rest (apiUpstream w1)
                 (trace w1))
    | [] => (inl (AxiosError "Network Error" None None), w1)
    end.

(** [this.accessToken] when it passes the test [if (this.accessToken)]:
    neither [null] nor the empty string. *)
Definition cached_token (w : World) : option string :=
  match accessToken w with
  | Some t => if truthy_string t then Some t else None
  | None => None
  end.

(** [AuthService.getAccessToken]: the cached token, or else one exchange
    whose token is stored; a failed exchange is thrown as an internal
    [McpError] carrying its message. *)
Definition getAccessToken : M string :=
  fun w =>
    match cached_token w with
    | Some t => ret t w
    | None =>
        try_catch
          (response <- oauthTokenRequest ;;
           (fun w' =>
              ret (access_token response)
                  (set_accessToken (Some (access_token response)) w')))
          (fun error =>
             throw (McpError InternalError
                             ("MercadoPago Auth error: " ++ exn_message error)))
          w
    end.

(** [AuthService.clearToken]. *)
Definition clearToken : M unit :=
  fun w => (inr tt, emit EvTokenCleared (set_accessToken None w)).

(** ** The axios instance [this.api] and its interceptors *)

(** [config.headers.Authorization = `Bearer ${token}`]. *)
Definition withAuthorization (token : string) (config : Config) : Config :=
  mkConfig (method config) (url config) (params config) (data config)
           (Some ("Bearer " ++ token)) (__isRetry config).

(** First request interceptor: attach the bearer token. *)
Definition authInterceptor (config : Config) : M Config :=
  token <- getAccessToken ;;
  ret (withAuthorization token config).

(** axios' default [validateStatus]. *)
Definition validateStatus (status : nat) : bool :=
  ((200 <=? status) && (status <? 300))%nat.

(** Sending the request and settling the promise on the answer. *)
Definition settle (config : Config) (o : HttpOutcome) : Exn + Response :=
  match o with
  | Responded st body =>
      if validateStatus st then inr (mkResponse st body config)
      else inl (AxiosError ("Request failed with status code "
                              ++ string_of_nat st)
                           (Some (st, body)) (Some config))
  | NoResponse message => inl (AxiosError message None (Some config))
  end.

Definition dispatchRequest (config : Config) : M Response :=
  fun w =>
    let w1 := emit (EvApiRequest config) w in
    match apiUpstream w1 with
    | o :: rest =>
        (settle config o,
         mkWorld (accessToken w1) (requestCount w1) (authUpstream w1) rest
                 (trace w1))
    | [] => (settle config (NoResponse "Network Error"), w1)
    end.

(** [error.response?.status]. *)
Definition error_status (e : Exn) : option nat :=
  match e with
  | AxiosError _ (Some (st, _)) _ => Some st
  | _ => None
  end.

(** [error.config]. *)
Definition error_config (e : Exn) : option Config :=
  match e with
  | AxiosError _ _ c => c
  | _ => None
  end.

(** The guard of the rejection interceptor:
    [error.response?.status === 401 && error.config] and then
    [!config.__isRetry].  It yields the configuration to re-issue. *)
Definition retryTarget (error : Exn) : option Config :=
  match error_status error, error_config error with
  | Some st, Some config =>
      if (st =? 401)%nat && negb (__isRetry config) then Some config else None
  | _, _ => None
  end.

(** [config.__isRetry = true]. *)
Definition markRetry (config : Config) : Config :=
  mkConfig (method config) (url config) (params config) (data config)
           (Authorization config) true.

(** Calls still allowed after this one: the source's recursion
    [return this.api(config)] happens only with the flag unset and sets it. *)
Definition retry_budget (config : Config) : nat :=
  if __isRetry config then 0 else 1.

(** A value together with the equation that names it, so that the
    termination proof below knows which call produced the error. *)
Definition inspect {A} (a : A) : {b : A | a = b} := exist _ a eq_refl.

(** The request half of the promise chain axios builds: the request
    interceptor, then the adapter. *)
Definition requestChain (config : Config) : M Response :=
  config1 <- authInterceptor config ;;
  dispatchRequest config1.

(** [this.api(config)]: the request chain followed by the response
    interceptors.  A fulfilled response passes through.  A rejection reaches
    the error interceptor: on a 401 of a call not yet retried the token is
    cleared, the flag is set and the whole call is issued again; any other
    rejection is thrown again as it is. *)
Equations? api (config : Config) (w : World) : (Exn + Response) * World
  by wf (retry_budget config) lt :=
api config w with inspect (requestChain config w) := {
  | exist _ (inr response, w1) _ => (inr response, w1)
  | exist _ (inl error, w1) Hchain with inspect (retryTarget error) := {
      | exist _ (Some c) Hretry =>
          api (markRetry c) (snd (clearToken w1))
      | exist _ None _ => (inl error, w1) } }.
Proof.
  (* the configuration to re-issue is the one of this call, whose flag is
     still unset, so one call remains in the budget *)
  assert (Hflag : __isRetry c = false /\ error_config error = Some c).
  { unfold retryTarget in Hretry.
    destruct (error_status error) as [st |]; [| discriminate].
    destruct (error_config error) as [c' |]; [| discriminate].
    destruct (st =? 401)%nat; cbn in Hretry; [| discriminate].
    destruct (__isRetry c') eqn:Hr; cbn in Hretry; [discriminate |].
    injection Hretry as <-. auto. }
  destruct Hflag as [Hflag Hc].
  unfold requestChain, authInterceptor, bind, ret in Hchain.
  unfold getAccessToken, try_catch, bind, ret, throw in Hchain.
  destruct (cached_token w) as [t |].
  - unfold dispatchRequest in Hchain. cbn in Hchain.
    destruct (apiUpstream w) as [| [st body | message] rest];
      cbn in Hchain; try destruct (validateStatus st);
      inversion Hchain; subst; cbn in Hc; inversion Hc; subst;
      unfold retry_budget; cbn in *; rewrite Hflag; lia.
  - destruct (oauthTokenRequest w) as [[e | body] w'].
    + inversion Hchain; subst. discriminate.
    + unfold dispatchRequest in Hchain. cbn in Hchain.
      destruct (apiUpstream w') as [| [st b | message] rest];
        cbn in Hchain; try destruct (validateStatus st);
        inversion Hchain; subst; cbn in Hc; inversion Hc; subst;
        unfold retry_budget; cbn in *; rewrite Hflag; lia.
Qed.

(** ** Reading properties and rendering values *)

Definition DQUOTE : string := String (ascii_of_nat 34) EmptyString.

(** The link emoji U+1F517 of the search digest, as its UTF-8 bytes. *)
Definition LINK_EMOJI : string :=
  String (ascii_of_nat 240) (String (ascii_of_nat 159)
    (String (ascii_of_nat 148) (String (ascii_of_nat 151) EmptyString))).

(** [v.key] on a value that is neither [null] nor [undefined].  The keys
    the program reads are own properties of parsed objects only; on a
    string, number, boolean or array they are [undefined]. *)
Definition prop (v : JsValue) (key : string) : JsValue :=
  match v with
  | Some (JObj fields) => assoc key fields
  | _ => None
  end.

(** [v.key] in general: reading a property of [null] or [undefined]
    throws (the message is the one of V8). *)
Definition get (v : JsValue) (key : string) : Exn + JsValue :=
  match v with
  | None =>
      inl (TypeError ("Cannot read properties of undefined (reading '"
                        ++ key ++ "')"))
  | Some JNull =>
      inl (TypeError ("Cannot read properties of null (reading '"
                        ++ key ++ "')"))
  | Some _ => inr (prop v key)
  end.

(** [v?.key]. *)
Definition get_optional (v : JsValue) (key : string) : JsValue :=
  match v with
  | None => None
  | Some JNull => None
  | Some _ => prop v key
  end.

(** An object literal [{ key: v }] as it is serialised: a property whose
    value is [undefined] is not sent. *)
Definition field (key : string) (v : JsValue) : list (string * Json) :=
  match v with
  | Some j => [(key, j)]
  | None => []
  end.

Definition lift {A} (r : Exn + A) : M A := fun w => (r, w).

(** Sequencing of computations that touch no state: the first exception
    ends the evaluation. *)
Definition and_then {A B} (r : Exn + A) (k : A -> Exn + B) : Exn + B :=
  match r with
  | inl e => inl e
  | inr a => k a
  end.

Notation "x <-- r ;; k" := (and_then r (fun x => k))
  (at level 61, r at next level, right associativity).

(** [items.map(f)] where [f] may throw: the first exception wins. *)
Fixpoint map_throwing {A B} (f : A -> Exn + B) (items : list A)
  : Exn + list B :=
  match items with
  | [] => inr []
  | x :: rest =>
      match f x with
      | inl e => inl e
      | inr y =>
          match map_throwing f rest with
          | inl e => inl e
          | inr ys => inr (y :: ys)
          end
      end
  end.

(** [response.data.map(f)]. *)
Definition data_map {B} (f : Json -> Exn + B) (d : Json) : Exn + list B :=
  match d with
  | JArr items => map_throwing f items
  | JNull => inl (TypeError "Cannot read properties of null (reading 'map')")
  | _ => inl (TypeError "response.data.map is not a function")
  end.

(** [array.join(sep)] when entries may be [null]: they render as empty. *)
Definition join_nullable (sep : string) (parts : list (option string))
  : string :=
  join sep (map (fun p => match p with Some s => s | None => EmptyString end)
                parts).

Record TextContent : Type := mkText {
  content_type : string;
  text : string
}.

(** The envelope returned by a tool.  [isError] is [None] when the object
    literal of the source has no such property. *)
Record ToolResponse : Type := mkToolResponse {
  content : list TextContent;
  isError : option bool
}.

Definition text_response (t : string) : ToolResponse :=
  mkToolResponse [mkText "text" t] None.

Record RequestContext : Type := mkContext {
  toolName : string;
  requestId : string
}.

Record ToolRequest : Type := mkToolRequest {
  name : string;
  arguments : JsValue
}.

Definition VALID_SITES : list string :=
  ["MLA"; "MLB"; "MLM"; "MLU"; "MLC"; "MCO"; "MPE"].

Definition SITE_DOMAINS : list (string * Json) :=
  [("MLA", JStr "www.mercadopago.com.ar");
   ("MLB", JStr "www.mercadopago.com.br");
   ("MLM", JStr "www.mercadopago.com.mx");
   ("MLU", JStr "www.mercadopago.com.uy");
   ("MLC", JStr "www.mercadopago.cl");
   ("MCO", JStr "www.mercadopago.com.co");
   ("MPE", JStr "www.mercadopago.com.pe")].

(** [SITE_DOMAINS[key]]. *)
Definition site_domain (key : JsValue) : JsValue :=
  match key with
  | Some (JStr s) => assoc s SITE_DOMAINS
  | _ => None
  end.

Definition SEPARATOR : string := LF ++ LF ++ "---" ++ LF ++ LF.

Definition is_undefined (v : JsValue) : bool :=
  match v with
  | None => true
  | Some _ => false
  end.

(** [typeof v === 'number' && v >= 1 && v <= 100]. *)
Definition number_between_1_and_100 (v : JsValue) : bool :=
  match v with
  | Some (JNum q) => Qle_bool 1 q && Qle_bool q 100
  | _ => false
  end.

Definition isSearchDocumentationArgs (args : JsValue) : bool :=
  if negb (truthy args) || negb (typeof args =? "object") then false
  else
    let validLanguage :=
      truthy (prop args "language")
      && includes ["es"; "pt"] (prop args "language") in
    let validQuery := typeof (prop args "query") =? "string" in
    let validSiteId :=
      truthy (prop args "siteId")
      && includes VALID_SITES (prop args "siteId") in
    let validLimit :=
      is_undefined (prop args "limit")
      || number_between_1_and_100 (prop args "limit") in
    validLanguage && validQuery && validSiteId && validLimit.

Definition createRequestContext (tool : string) : M RequestContext :=
  fun w =>
    let n := S (requestCount w) in
    (inr (mkContext tool ("req_" ++ string_of_nat n)),
     mkWorld (accessToken w) n (authUpstream w) (apiUpstream w) (trace w)).

(** A fresh call [this.api.get(url, { params })] or
    [this.api.post(url, data)]: no token yet, never retried. *)
Definition api_get (u : string) (ps : list (string * Json)) : M Response :=
  api (mkConfig GET u ps None None false).

Definition api_post (u : string) (body : Json) : M Response :=
  api (mkConfig POST u [] (Some body) None false).

Section Handlers.

(** [String(x)] for a number is taken from the JavaScript engine. *)
Variable number_to_string : Q -> string.

(** [String(v)], as a template literal computes it.  A parsed object is
    converted through [toString] and then [valueOf]: with an own
    [toString] key, which after parsing is never a function, neither yields
    a primitive and the conversion throws; without it the inherited
    [toString] answers.  An array is converted by joining the conversions
    of its entries, left to right, [null] entries being empty. *)
Fixpoint to_string (v : Json) : Exn + string :=
  match v with
  | JNull => inr "null"
  | JBool true => inr "true"
  | JBool false => inr "false"
  | JNum q => inr (number_to_string q)
  | JStr s => inr s
  | JArr items =>
      match
        (fix entries (l : list Json) : Exn + list string :=
           match l with
           | [] => inr []
           | i :: rest =>
               match match i with
                     | JNull => inr EmptyString
                     | _ => to_string i
                     end with
               | inl e => inl e
               | inr s =>
                   match entries rest with
                   | inl e => inl e
                   | inr ss => inr (s :: ss)
                   end
               end
           end) items
      with
      | inl e => inl e
      | inr parts => inr (join "," parts)
      end
  | JObj fields =>
      match assoc "toString" fields with
      | Some _ => inl (TypeError "Cannot convert object to primitive value")
      | None => inr "[object Object]"
      end
  end.

(** A placeholder of a template literal. *)
Definition template (v : JsValue) : Exn + string :=
  match v with
  | None => inr "undefined"
  | Some j => to_string j
  end.

Definition buildDocumentationUrl (siteDomain language path : JsValue)
  : Exn + string :=
  if negb (truthy siteDomain) || negb (truthy language) then
    inl (McpError InvalidParams
                  "Missing required parameters for URL construction")
  else
    domain_text <-- template siteDomain ;;
    language_text <-- template language ;;
    path_text <-- template (js_or path (Some (JStr EmptyString))) ;;
    inr ("https://" ++ domain_text ++ "/developers/"
           ++ language_text ++ path_text).

Definition handleCreateCustomer (args : JsValue) (context : RequestContext)
  : M ToolResponse :=
  try_catch
    (response <- api_post "https://api.mercadopago.com/v1/customers"
                          (JObj (field "email" (get_optional args "email"))) ;;
     user_id <- lift (get (Some (response_data response)) "user_id") ;;
     id_text <- lift (template user_id) ;;
     ret (text_response ("Customer created successfully with id: "
                           ++ id_text)))
    (fun e => ret (text_response "No document types found. Try again later.")).

Definition document_type_section (method : Json) : Exn + string :=
  name_field <-- get (Some method) "name" ;;
  name_text <-- template name_field ;;
  id_text <-- template (prop (Some method) "payment_type_id") ;;
  type_text <-- template (prop (Some method) "type") ;;
  inr ("## " ++ name_text ++ " " ++ LF
         ++ " id: " ++ id_text ++ " " ++ LF
         ++ "type: " ++ type_text).

Definition handleDocumentTypes (context : RequestContext) : M ToolResponse :=
  try_catch
    (response <- api_get
                   "https://api.mercadopago.com/v1/identification_types" [] ;;
     sections <- lift (data_map document_type_section
                                (response_data response)) ;;
     ret (text_response (join SEPARATOR sections)))
    (fun e => ret (text_response "No document types found. Try again later.")).

Definition payment_method_section (method : Json) : Exn + string :=
  name_field <-- get (Some method) "name" ;;
  name_text <-- template name_field ;;
  id_text <-- template (prop (Some method) "payment_type_id") ;;
  thumbnail_text <-- template (prop (Some method) "thumbnail") ;;
  inr ("## " ++ name_text ++ " " ++ LF
         ++ " id: " ++ id_text ++ " " ++ LF
         ++ "thumbnail: " ++ thumbnail_text).

Definition handlePaymentsMethods (context : RequestContext)
  : M ToolResponse :=
  try_catch
    (response <- api_get "https://api.mercadopago.com/v1/payment_methods" [] ;;
     sections <- lift (data_map payment_method_section
                                (response_data response)) ;;
     ret (text_response (join SEPARATOR sections)))
    (fun e => ret (text_response "No payments found. Try again later.")).

(** The callback of [results.map] in [handleSearchDocumentation]: [None] is
    the [null] returned for a result with neither title nor content.  The
    link is built first; title, content and score are converted when the
    block is put together. *)
Definition render_result (args : JsValue) (result : Json)
  : Exn + option string :=
  title_field <-- get (Some result) "title" ;;
  let content_field := prop (Some result) "content" in
  if negb (truthy title_field) && negb (truthy content_field) then
    inr None
  else
    let title := js_or title_field (Some (JStr "Untitled")) in
    let body :=
      js_or content_field (Some (JStr "No description available")) in
    let siteDomain := site_domain (prop args "siteId") in
    link <-- buildDocumentationUrl
               siteDomain (prop args "language")
               (js_or (prop (Some result) "url") (Some (JStr EmptyString))) ;;
    let score := js_or (prop (Some result) "score") (Some (JNum 0)) in
    title_text <-- template title ;;
    body_text <-- template body ;;
    score_text <-- template score ;;
    inr (Some ("## " ++ title_text ++ LF
                 ++ body_text ++ LF
                 ++ LF
                 ++ LINK_EMOJI ++ " [Read more](" ++ link ++ ")" ++ LF
                 ++ LF
                 ++ "Score: " ++ score_text ++ LF)).

Definition search_heading (query_text : string) (n : nat) : string :=
  "# Search Results for " ++ DQUOTE ++ query_text ++ DQUOTE
    ++ LF ++ "Showing " ++ string_of_nat n ++ " results" ++ LF ++ LF.

Definition handleSearchDocumentation (args : JsValue)
                                     (context : RequestContext)
  : M ToolResponse :=
  try_catch
    (response <- api_get "/docs/v1/search"
                   (field "term" (prop args "query")
                      ++ field "lang" (prop args "language")
                      ++ field "siteId" (prop args "siteId")
                      ++ field "maxResults"
                           (js_or (prop args "limit") (Some (JNum 10))))%list ;;
     match response_data response with
     | JArr results =>
         match results with
         | [] =>
             query_text <- lift (template (prop args "query")) ;;
             ret (text_response
                    ("No documentation found for query " ++ DQUOTE
                       ++ query_text ++ DQUOTE
                       ++ ". Try a different search term."))
         | _ :: _ =>
             blocks <- lift (map_throwing (render_result args) results) ;;
             let markdown := join_nullable SEPARATOR blocks in
             query_text <- lift (template (prop args "query")) ;;
             ret (text_response
                    (search_heading query_text (List.length results)
                       ++ (if (0 <? List.length results)%nat then markdown
                           else "No results found.")))
         end
     | _ =>
         throw (McpError InternalError
                         "No search results available for the given query")
     end)
    (fun error =>
       ret (mkToolResponse
              [mkText "text"
                      ("Error searching documentation: " ++ exn_message error)]
              (Some true))).

(** The handler registered for [CallToolRequestSchema]. *)
Definition callTool (request : ToolRequest) : M ToolResponse :=
  context <- createRequestContext (name request) ;;
  try_catch
    (if name request =? "search_documentation" then
       if isSearchDocumentationArgs (arguments request) then
         handleSearchDocumentation (arguments request) context
       else
         throw (McpError InvalidParams
                         "Invalid search_documentation arguments")
     else if name request =? "payments_methods" then
       handlePaymentsMethods context
     else if name request =? "document_types" then
       handleDocumentTypes context
     else if name request =? "create_customer" then
       handleCreateCustomer (arguments request) context
     else
       throw (McpError MethodNotFound ("Unknown tool: " ++ name request)))
    (fun error =>
       match error with
       | AxiosError message response _ =>
           let upstream_message :=
             match response with
             | Some (_, body) => get_optional (Some body) "message"
             | None => None
             end in
           message_text <- lift (template (js_or upstream_message
                                                 (Some (JStr message)))) ;;
           ret (mkToolResponse
                  [mkText "text" ("MercadoPago API error: " ++ message_text)]
                  (Some true))
       | _ => throw error
       end).

End Handlers.

(** ** The list-tools answer *)

Definition no_parameters : Json :=
  JObj [("type", JStr "object"); ("properties", JObj []);
        ("required", JArr [])].

(** The object returned by the handler registered for
    [ListToolsRequestSchema]. *)
Definition listTools : Json :=
  JObj
    [("tools",
      JArr
        [JObj
           [("name", JStr "create_customer");
            ("description", JStr "Create a new customer in Mercado Pago");
            ("inputSchema",
             JObj
               [("type", JStr "object");
                ("properties",
                 JObj
                   [("email",
                     JObj [("type", JStr "string");
                           ("description", JStr "Email of the customer")])]);
                ("required", JArr [JStr "email"])])];
         JObj
           [("name", JStr "document_types");
            ("description",
             JStr "Get available Mercado Pago document types");
            ("inputSchema", no_parameters)];
         JObj
           [("name", JStr "payments_methods");
            ("description",
             JStr "Get available Mercado Pago payments methods");
            ("inputSchema", no_parameters)];
         JObj
           [("name", JStr "search_documentation");
            ("description", JStr "Search Mercado Pago documentation");
            ("inputSchema",
             JObj
               [("type", JStr "object");
                ("properties",
                 JObj
                   [("language",
                     JObj
                       [("type", JStr "string");
                        ("enum", JArr [JStr "es"; JStr "pt"]);
                        ("description",
                         JStr "Language of the documentation (es: Spanish, pt: Portuguese)")]);
                    ("query",
                     JObj [("type", JStr "string");
                           ("description", JStr "Search query")]);
                    ("siteId",
                     JObj
                       [("type", JStr "string");
                        ("description", JStr "Site ID for documentation");
                        ("enum",
                         JArr [JStr "MLB"; JStr "MLM"; JStr "MLA"; JStr "MLU";
                               JStr "MLC"; JStr "MCO"; JStr "MPE"])]);
                    ("limit",
                     JObj
                       [("type", JStr "number");
                        ("description",
                         JStr "Maximum number of results to return (default: 10)");
                        ("minimum", JNum 1);
                        ("maximum", JNum 100)])]);
                ("required",
                 JArr [JStr "language"; JStr "query"; JStr "siteId"])])]])].

(** ** Vocabulary of the statements *)

(** Observations on a list of events. *)
Definition is_exchange (e : Event) : bool :=
  match e with EvTokenExchange => true | _ => false end.

Definition is_clear (e : Event) : bool :=
  match e with EvTokenCleared => true | _ => false end.

Definition is_request (e : Event) : bool :=
  match e with EvApiRequest _ => true | _ => false end.

Definition is_retried_request (e : Event) : bool :=
  match e with EvApiRequest c => __isRetry c | _ => false end.

Definition token_exchanges (t : list Event) : nat :=
  List.length (filter is_exchange t).

Definition token_clears (t : list Event) : nat :=
  List.length (filter is_clear t).

Definition api_requests (t : list Event) : nat :=
  List.length (filter is_request t).

Definition retried_requests (t : list Event) : nat :=
  List.length (filter is_retried_request t).

(** Every request flagged as a retry comes after a clearing of the token;
    [cleared] tells whether one has been seen already. *)
Fixpoint retry_follows_clear (cleared : bool) (t : list Event) : bool :=
  match t with
  | [] => true
  | EvTokenCleared :: rest => retry_follows_clear true rest
  | EvApiRequest c :: rest =>
      implb (__isRetry c) cleared && retry_follows_clear cleared rest
  | EvTokenExchange :: rest => retry_follows_clear cleared rest
  end.

(** The world once a tool call has been registered by
    [createRequestContext]: only the request counter moves. *)
Definition registered (w : World) : World :=
  mkWorld (accessToken w) (S (requestCount w)) (authUpstream w)
          (apiUpstream w) (trace w).

Definition is_401 (o : HttpOutcome) : bool :=
  match o with
  | Responded st _ => (st =? 401)%nat
  | NoResponse _ => false
  end.

(** None of the next [n] answers of the API is a 401. *)
Definition no_401_among (n : nat) (w : World) : Prop :=
  forallb (fun o => negb (is_401 o)) (firstn n (apiUpstream w)) = true.

(** The TypeScript types [SiteId] and [Language]. *)
Inductive SiteId : Type := MLA | MLB | MLM | MLU | MLC | MCO | MPE.

Inductive Language : Type := es | pt.

Definition site_id_string (s : SiteId) : string :=
  match s with
  | MLA => "MLA" | MLB => "MLB" | MLM => "MLM" | MLU => "MLU"
  | MLC => "MLC" | MCO => "MCO" | MPE => "MPE"
  end.

Definition language_string (l : Language) : string :=
  match l with es => "es" | pt => "pt" end.

(** The tools of the list-tools answer. *)
Definition registered_tools : list string :=
  ["create_customer"; "document_types"; "payments_methods";
   "search_documentation"].

(** Tool calls made one after the other: each starts in the world the
    previous one left, whatever it returned. *)
Definition after_calls (number_to_string : Q -> string)
                       (requests : list ToolRequest) (w : World) : World :=
  fold_left (fun w' r => snd (callTool number_to_string r w')) requests w.

(** A computation that leaves the world as it found it. *)
Definition world_preserving {A} (m : M A) : Prop :=
  forall w, snd (m w) = w.

(** Arguments that the declared schema of search_documentation refuses:
    a numeric [limit] outside [1, 100], a [siteId] outside the enumeration,
    a [language] outside the enumeration. *)
Definition limit_out_of_range (args : JsValue) : Prop :=
  exists q, prop args "limit" = Some (JNum q) /\ (q < 1 \/ 100 < q)%Q.

Definition site_not_listed (args : JsValue) : Prop :=
  forall s,
    prop args "siteId" = Some (JStr s) ->
    ~ In s ["MLB"; "MLM"; "MLA"; "MLU"; "MLC"; "MCO"; "MPE"].

Definition language_not_listed (args : JsValue) : Prop :=
  forall s, prop args "language" = Some (JStr s) -> ~ In s ["es"; "pt"].

(** The strings of a JSON array of strings. *)
Definition json_strings (v : JsValue) : list string :=
  match v with
  | Some (JArr items) =>
      flat_map (fun i => match i with JStr s => [s] | _ => [] end) items
  | _ => []
  end.

(** The tool declarations of a list-tools answer, their names, and the
    input schema declared for a name. *)
Definition declared_tools (answer : Json) : list Json :=
  match prop (Some answer) "tools" with
  | Some (JArr tools) => tools
  | _ => []
  end.

Definition tool_name (tool : Json) : list string :=
  match prop (Some tool) "name" with
  | Some (JStr n) => [n]
  | _ => []
  end.

Definition advertised_names : list string :=
  flat_map tool_name (declared_tools listTools).

Definition inputSchema_of (tool : string) : JsValue :=
  match find (fun t => existsb (String.eqb tool) (tool_name t))
             (declared_tools listTools) with
  | Some t => prop (Some t) "inputSchema"
  | None => None
  end.

(** JSON Schema validation, for the keywords the declarations use: [type]
    (string, number, object), [enum] of strings, [minimum], [maximum],
    [properties] and [required].  A keyword that is absent constrains
    nothing; [minimum] and [maximum] constrain numbers only. *)
Definition has_json_type (t : JsValue) (v : Json) : bool :=
  match t with
  | Some (JStr t') =>
      if t' =? "string" then match v with JStr _ => true | _ => false end
      else if t' =? "number" then match v with JNum _ => true | _ => false end
      else if t' =? "object" then match v with JObj _ => true | _ => false end
      else true
  | _ => true
  end.

Definition in_enum (e : JsValue) (v : Json) : bool :=
  match e with
  | Some (JArr _) =>
      match v with
      | JStr s => existsb (String.eqb s) (json_strings e)
      | _ => false
      end
  | _ => true
  end.

Definition at_least (bound : JsValue) (v : Json) : bool :=
  match bound, v with
  | Some (JNum lo), JNum q => Qle_bool lo q
  | _, _ => true
  end.

Definition at_most (bound : JsValue) (v : Json) : bool :=
  match bound, v with
  | Some (JNum hi), JNum q => Qle_bool q hi
  | _, _ => true
  end.

Definition satisfies_keywords (schema v : Json) : bool :=
  has_json_type (prop (Some schema) "type") v
  && in_enum (prop (Some schema) "enum") v
  && at_least (prop (Some schema) "minimum") v
  && at_most (prop (Some schema) "maximum") v.

Definition declared_properties (schema : JsValue) : list (string * Json) :=
  match prop schema "properties" with
  | Some (JObj ps) => ps
  | _ => []
  end.

Definition satisfies_schema (schema args : JsValue) : bool :=
  match schema, args with
  | Some sch, Some (JObj fields) =>
      satisfies_keywords sch (JObj fields)
      && forallb (fun k => negb (is_undefined (assoc k fields)))
                 (json_strings (prop schema "required"))
      && forallb (fun p => match assoc (fst p) fields with
                           | Some v => satisfies_keywords (snd p) v
                           | None => true
                           end)
                 (declared_properties schema)
  | _, _ => false
  end.

(** The context a call gets: its tool name and the next request number. *)
Definition context_of (request : ToolRequest) (w : World) : RequestContext :=
  mkContext (name request) ("req_" ++ string_of_nat (S (requestCount w))).

(** Values whose conversion to a string does not throw: those in which no
    object reached by the conversion has an own [toString] key. *)
Fixpoint convertible (v : Json) : bool :=
  match v with
  | JArr items =>
      forallb (fun i => match i with
                        | JNull => true
                        | _ => convertible i
                        end) items
  | JObj fields => is_undefined (assoc "toString" fields)
  | _ => true
  end.

Definition convertible_value (v : JsValue) : bool :=
  match v with
  | None => true
  | Some j => convertible j
  end.

(** The string such a value is converted to. *)
Fixpoint text_of (number_to_string : Q -> string) (v : Json) : string :=
  match v with
  | JNull => "null"
  | JBool true => "true"
  | JBool false => "false"
  | JNum q => number_to_string q
  | JStr s => s
  | JArr items =>
      join "," (map (fun i => match i with
                              | JNull => EmptyString
                              | _ => text_of number_to_string i
                              end) items)
  | JObj _ => "[object Object]"
  end.

Definition text_of_value (number_to_string : Q -> string) (v : JsValue)
  : string :=
  match v with
  | None => "undefined"
  | Some j => text_of number_to_string j
  end.

(** The fields a handler prints of a record can all be converted. *)
Definition fields_convertible (keys : list string) (record : Json) : bool :=
  forallb (fun k => convertible_value (prop (Some record) k)) keys.

(** The section of a listing for one record whose fields can be converted. *)
Definition document_type_text (number_to_string : Q -> string)
                              (record : Json) : string :=
  "## " ++ text_of_value number_to_string (prop (Some record) "name") ++ " " ++ LF
    ++ " id: "
    ++ text_of_value number_to_string (prop (Some record) "payment_type_id")
    ++ " " ++ LF
    ++ "type: " ++ text_of_value number_to_string (prop (Some record) "type").

Definition payment_method_text (number_to_string : Q -> string)
                               (record : Json) : string :=
  "## " ++ text_of_value number_to_string (prop (Some record) "name") ++ " " ++ LF
    ++ " id: "
    ++ text_of_value number_to_string (prop (Some record) "payment_type_id")
    ++ " " ++ LF
    ++ "thumbnail: "
    ++ text_of_value number_to_string (prop (Some record) "thumbnail").

(** A body that is not an array, or an array that holds a [null]. *)
Definition unusable_listing (body : Json) : Prop :=
  (forall items, body <> JArr items)
  \/ exists items, body = JArr items /\ In JNull items.

(** The block of the search digest for a result, as section 6 of the
    specification writes it. *)
Definition result_block (title body link score : string) : string :=
  "## " ++ title ++ LF ++ body ++ LF ++ LF
    ++ LINK_EMOJI ++ " [Read more](" ++ link ++ ")" ++ LF ++ LF
    ++ "Score: " ++ score ++ LF.

(** What the digest holds for one search result: nothing when the result
    has neither title nor content, else the block with the fallbacks
    "Untitled", "No description available", the empty path and score 0. *)
Definition rendered_as (number_to_string : Q -> string)
                       (domain language : string) (result : Json)
                       (block : option string) : Prop :=
  let title := prop (Some result) "title" in
  let body := prop (Some result) "content" in
  if negb (truthy title) && negb (truthy body) then block = None
  else
    block
    = Some (result_block
              (text_of_value number_to_string
                        (js_or title (Some (JStr "Untitled"))))
              (text_of_value number_to_string
                        (js_or body (Some (JStr "No description available"))))
              ("https://" ++ domain ++ "/developers/" ++ language
                 ++ text_of_value number_to_string
                      (js_or (prop (Some result) "url")
                             (Some (JStr EmptyString))))
              (text_of_value number_to_string
                        (js_or (prop (Some result) "score")
                               (Some (JNum 0))))).

(** What a handler can see of the result of its pipeline call: the body of
    a response, or the message of an error. *)
Definition outcome (result : Exn + Response) : string + Json :=
  match result with
  | inl e => inl (exn_message e)
  | inr response => inr (response_data response)
  end.

(** A search result the digest can show: one that is skipped for having
    neither title nor content, or one whose title, content, url and score
    can all be converted to a string. *)
Definition renderable (result : Json) : bool :=
  negb (truthy (prop (Some result) "title"))
  && negb (truthy (prop (Some result) "content"))
  || fields_convertible ["title"; "content"; "url"; "score"] result.

(** ** Sample data *)

(** A number renderer for the examples: exact on integers. *)
Definition integer_to_string (q : Q) : string :=
  NilZero.string_of_int (Z.to_int (Qnum q / Zpos (Qden q))).

Definition sample_grant (token : string) : AuthOutcome :=
  AuthGranted (mkAuthResponse token "bearer" 3600 "read").

Definition sample_search_config : Config :=
  mkConfig GET "/docs/v1/search" [] None None false.

(** A stale cached token: the API answers 401, then 200. *)
Definition world_401_then_200 : World :=
  mkWorld (Some "stale") 0 [sample_grant "fresh"]
          [Responded 401 JNull; Responded 200 (JArr [])] [].

(** A stale cached token and an API that answers 401 twice. *)
Definition world_401_twice : World :=
  mkWorld (Some "stale") 0 [sample_grant "fresh"]
          [Responded 401 JNull; Responded 401 JNull; Responded 200 (JArr [])]
          [].

(** A call already retried, with a valid-looking cached token, refused. *)
Definition world_401_on_retried : World :=
  mkWorld (Some "t") 0 [] [Responded 401 JNull; Responded 200 (JArr [])] [].

Definition list_document_types : ToolRequest :=
  mkToolRequest "document_types" None.

(** Empty cache; the exchange is granted; the first API request is
    answered 401. *)
Definition world_granted_then_401 : World :=
  mkWorld None 0 [sample_grant "first"; sample_grant "second"]
          [Responded 401 JNull; Responded 200 (JArr []);
           Responded 200 (JArr [])] [].

(** Empty cache; the exchange is granted with an empty token. *)
Definition world_granted_empty_token : World :=
  mkWorld None 0 [sample_grant EmptyString; sample_grant "second"]
          [Responded 200 (JArr []); Responded 200 (JArr [])] [].

(** Empty cache, a granted exchange and an API that answers 200. *)
Definition world_granted_then_200 : World :=
  mkWorld None 0 [sample_grant "first"; sample_grant "second"]
          [Responded 200 (JArr []); Responded 200 (JArr [])] [].

Definition sample_context (tool : string) : RequestContext :=
  mkContext tool "req_1".

(** [create_customer] with no [email] among its arguments. *)
Definition create_customer_without_email : ToolRequest :=
  mkToolRequest "create_customer" (Some (JObj [])).

(** A cached token and an API that refuses the incomplete customer. *)
Definition world_customer_refused : World :=
  mkWorld (Some "t") 0 []
          [Responded 400 (JObj [("message", JStr "email is required")])] [].

(** A cached token and an API that answers the POST with 201 and a body
    that has no [user_id]. *)
Definition world_customer_without_id : World :=
  mkWorld (Some "t") 0 [] [Responded 201 (JObj [])] [].

(** The POST answered 201 with the body [null], and with a customer. *)
Definition world_customer_null_body : World :=
  mkWorld (Some "t") 0 [] [Responded 201 JNull] [].

(** The POST answered 201 with a [user_id] that has its own [toString]
    key. *)
Definition world_customer_odd_id : World :=
  mkWorld (Some "t") 0 []
          [Responded 201 (JObj [("user_id", JObj [("toString", JNum 1)])])]
          [].

Definition world_customer_created : World :=
  mkWorld (Some "t") 0 [] [Responded 201 (JObj [("user_id", JNum 42)])] [].

Definition customer_arguments : JsValue :=
  Some (JObj [("email", JStr "jane@example.com")]).

Definition search_arguments : JsValue :=
  Some (JObj [("language", JStr "es"); ("query", JStr "checkout");
              ("siteId", JStr "MLA")]).

(** Three search results: one without title, one with neither title nor
    content, one without content. *)
Definition world_three_results : World :=
  mkWorld (Some "t") 0 []
          [Responded 200
             (JArr [JObj [("content", JStr "First body"); ("url", JStr "/a")];
                    JObj [("url", JStr "/b")];
                    JObj [("title", JStr "Third"); ("url", JStr "/c")]])]
          [].

Definition search_arguments_for (language site : string) : JsValue :=
  Some (JObj [("language", JStr language); ("query", JStr "checkout");
              ("siteId", JStr site)]).

Definition search_arguments_with_limit (limit : Q) : JsValue :=
  Some (JObj [("language", JStr "es"); ("query", JStr "checkout");
              ("siteId", JStr "MLA"); ("limit", JNum limit)]).

(** A listing of two records, and a listing answered with an object. *)
Definition world_two_records : World :=
  mkWorld (Some "t") 0 []
          [Responded 200
             (JArr [JObj [("name", JStr "DNI"); ("payment_type_id", JStr "id");
                          ("type", JStr "number");
                          ("thumbnail", JStr "dni.png")];
                    JObj [("name", JStr "CUIT")]])]
          [].

Definition world_listing_object : World :=
  mkWorld (Some "t") 0 [] [Responded 200 (JObj [("results", JArr [])])] [].

(** A listing whose only record has a name with its own [toString] key. *)
Definition world_odd_record : World :=
  mkWorld (Some "t") 0 []
          [Responded 200 (JArr [JObj [("name", JObj [("toString", JNum 1)])]])]
          [].

Definition world_empty_listing : World :=
  mkWorld (Some "t") 0 [] [Responded 200 (JArr [])] [].

(** A search answered with one result whose title has its own [toString]
    key, and search arguments whose query has one. *)
Definition world_odd_result : World :=
  mkWorld (Some "t") 0 []
          [Responded 200
             (JArr [JObj [("title", JObj [("toString", JNum 1)]);
                          ("url", JStr "/a")]])]
          [].

Definition search_arguments_odd_query : JsValue :=
  Some (JObj [("language", JStr "es");
              ("query", JObj [("toString", JNum 1)]);
              ("siteId", JStr "MLA")]).

(** ** The pipeline *)

Lemma api_eq config w :
  api config w =
  match requestChain config w with
  | (inr response, w1) => (inr response, w1)
  | (inl error, w1) =>
      match retryTarget error with
      | Some c => api (markRetry c) (snd (clearToken w1))
      | None => (inl error, w1)
      end
  end.
Proof.
  funelim (api config w);
    repeat match goal with
      | E : requestChain _ _ = _ |- _ => progress rewrite E
      | E : retryTarget _ = _ |- _ => progress rewrite E
      end; reflexivity.
Qed.

Lemma dispatchRequest_eq config w :
  dispatchRequest config w =
  (settle config (hd (NoResponse "Network Error") (apiUpstream w)),
   mkWorld (accessToken w) (requestCount w) (authUpstream w)
           (tl (apiUpstream w)) (trace w ++ [EvApiRequest config])).
Proof.
  unfold dispatchRequest. cbn.
  destruct (apiUpstream w) as [| o rest] eqn:Hup; cbn.
  - unfold emit. rewrite Hup. reflexivity.
  - reflexivity.
Qed.

Lemma requestChain_eq config w :
  requestChain config w =
  match getAccessToken w with
  | (inl e, w1) => (inl e, w1)
  | (inr token, w1) => dispatchRequest (withAuthorization token config) w1
  end.
Proof.
  unfold requestChain, authInterceptor, bind, ret.
  destruct (getAccessToken w) as [[e | token] w1]; reflexivity.
Qed.

(** A cached token is returned as it is, without any exchange. *)
Lemma getAccessToken_cached w t :
  cached_token w = Some t -> getAccessToken w = (inr t, w).
Proof.
  intros H. unfold getAccessToken. rewrite H. reflexivity.
Qed.

(** With an empty cache exactly one exchange is attempted; its token, if
    granted, is stored. *)
Lemma getAccessToken_empty w :
  cached_token w = None ->
  getAccessToken w =
  match authUpstream w with
  | AuthGranted body :: rest =>
      (inr (access_token body),
       mkWorld (Some (access_token body)) (requestCount w) rest
               (apiUpstream w) (trace w ++ [EvTokenExchange]))
  | AuthRefused message :: rest =>
      (inl (McpError InternalError ("MercadoPago Auth error: " ++ message)),
       mkWorld (accessToken w) (requestCount w) rest (apiUpstream w)
               (trace w ++ [EvTokenExchange]))
  | [] =>
      (inl (McpError InternalError "MercadoPago Auth error: Network Error"),
       emit EvTokenExchange w)
  end.
Proof.
  intros H. unfold getAccessToken. rewrite H.
  unfold try_catch, bind, oauthTokenRequest. cbn.
  destruct (authUpstream w) as [| [body | message] rest]; reflexivity.
Qed.

(** Failures of the token stage carry no request configuration, so the
    retry rule does not apply to them. *)
Lemma getAccessToken_error_no_retry w e w1 :
  getAccessToken w = (inl e, w1) -> retryTarget e = None.
Proof.
  destruct (cached_token w) as [t |] eqn:Hc.
  - rewrite (getAccessToken_cached _ Hc). discriminate.
  - rewrite (getAccessToken_empty _ Hc).
    destruct (authUpstream w) as [| [body | message] rest];
      intros H; inversion H; reflexivity.
Qed.

(** What the rejection interceptor decides on the outcome of a request. *)
Lemma retryTarget_settle config o e :
  settle config o = inl e ->
  retryTarget e =
  if is_401 o && negb (__isRetry config) then Some config else None.
Proof.
  destruct o as [st body | message]; cbn.
  - destruct (validateStatus st) eqn:Hv; intros H; inversion H; subst.
    reflexivity.
  - intros H; inversion H; subst. reflexivity.
Qed.

Lemma settle_401 config body :
  settle config (Responded 401 body) =
  inl (AxiosError "Request failed with status code 401" (Some (401, body))
                  (Some config)).
Proof. reflexivity. Qed.

Lemma requestChain_retryTarget config w e w1 c :
  requestChain config w = (inl e, w1) ->
  retryTarget e = Some c ->
  __isRetry config = false /\ __isRetry c = false.
Proof.
  rewrite requestChain_eq.
  destruct (getAccessToken w) as [[e' | token] w'] eqn:Hacq.
  - intros H; inversion H; subst.
    rewrite (getAccessToken_error_no_retry _ Hacq). discriminate.
  - rewrite dispatchRequest_eq. intros H; inversion H as [[Hs Hw]].
    rewrite (retryTarget_settle _ _ Hs).
    destruct (is_401 _); cbn; [| discriminate].
    destruct (__isRetry config) eqn:Hr; cbn; [discriminate |].
    intros Hc; inversion Hc; subst. cbn. auto.
Qed.

(** A call already marked as retried goes through the chain once more and
    is never re-issued. *)
Lemma api_retried config w :
  __isRetry config = true -> api config w = requestChain config w.
Proof.
  intros Hflag. rewrite api_eq.
  destruct (requestChain config w) as [[e | response] w1] eqn:Hchain;
    [| reflexivity].
  destruct (retryTarget e) as [c |] eqn:Hretry; [| reflexivity].
  destruct (requestChain_retryTarget _ _ Hchain Hretry) as [Hfresh _].
  congruence.
Qed.

(** The pipeline without recursion: at most two passes through the chain. *)
Lemma api_two_passes config w :
  api config w =
  match requestChain config w with
  | (inr response, w1) => (inr response, w1)
  | (inl error, w1) =>
      match retryTarget error with
      | Some c => requestChain (markRetry c) (snd (clearToken w1))
      | None => (inl error, w1)
      end
  end.
Proof.
  rewrite api_eq.
  destruct (requestChain config w) as [[e | response] w1]; [| reflexivity].
  destruct (retryTarget e) as [c |]; [| reflexivity].
  apply api_retried. reflexivity.
Qed.

(** The token stage touches neither the API's pending answers nor the
    request counter. *)
Lemma getAccessToken_frame w r w1 :
  getAccessToken w = (r, w1) ->
  apiUpstream w1 = apiUpstream w /\ requestCount w1 = requestCount w.
Proof.
  destruct (cached_token w) as [t |] eqn:Hc.
  - rewrite (getAccessToken_cached _ Hc). intros H; inversion H; auto.
  - rewrite (getAccessToken_empty _ Hc).
    destruct (authUpstream w) as [| [body | message] rest];
      intros H; inversion H; auto.
Qed.

(** ** The single retry on 401 *)

(** C1.  An outbound call whose first request is answered 401 and whose
    re-issued request is answered 200: after the first request the pipeline
    clears the token once, exchanges credentials once, sends one retried
    request, and the caller receives the 200 response. *)
Theorem retry_once_after_401
  (config : Config) (w w1 : World) (token : string)
  (unauthorized ok : Json) (answers : list HttpOutcome)
  (grant : AuthResponse) (grants : list AuthOutcome) :
  __isRetry config = false ->
  getAccessToken w = (inr token, w1) ->
  apiUpstream w = Responded 401 unauthorized :: Responded 200 ok :: answers ->
  authUpstream w1 = AuthGranted grant :: grants ->
  let first := withAuthorization token config in
  let second := withAuthorization (access_token grant) (markRetry first) in
  let after :=
    [EvApiRequest first; EvTokenCleared; EvTokenExchange;
     EvApiRequest second] in
  api config w =
    (inr (mkResponse 200 ok second),
     mkWorld (Some (access_token grant)) (requestCount w) grants answers
             (trace w1 ++ after))
  /\ token_clears after = 1
  /\ token_exchanges after = 1
  /\ retried_requests after = 1
  /\ api_requests after = 2.
Proof.
  intros Hfresh Hacq Hapi Hauth first second after.
  destruct (getAccessToken_frame _ Hacq) as [Hup Hcount].
  split;
    [| repeat split; try reflexivity;
       unfold retried_requests; cbn; rewrite Hfresh; reflexivity].
  rewrite api_two_passes, requestChain_eq, Hacq, dispatchRequest_eq.
  rewrite Hup, Hapi. cbn [hd tl]. rewrite settle_401.
  unfold retryTarget. cbn [error_status error_config].
  cbn [Nat.eqb withAuthorization __isRetry]. rewrite Hfresh. cbn [negb andb].
  rewrite requestChain_eq.
  rewrite getAccessToken_empty by reflexivity.
  cbn [clearToken snd emit set_accessToken authUpstream accessToken
       requestCount apiUpstream trace].
  rewrite Hauth. rewrite dispatchRequest_eq.
  cbn [accessToken requestCount authUpstream apiUpstream trace hd tl].
  cbn [settle]. change (validateStatus 200) with true. cbn iota.
  rewrite Hcount. unfold after, first, second.
  rewrite <- !app_assoc. reflexivity.
Qed.

Lemma retry_once_after_401_witness :
  fst (api sample_search_config world_401_then_200)
  = inr (mkResponse 200 (JArr [])
           (mkConfig GET "/docs/v1/search" [] None (Some "Bearer fresh")
                     true))
  /\ trace (snd (api sample_search_config world_401_then_200))
     = [EvApiRequest (withAuthorization "stale" sample_search_config);
        EvTokenCleared; EvTokenExchange;
        EvApiRequest (mkConfig GET "/docs/v1/search" [] None
                               (Some "Bearer fresh") true)].
Proof.
  destruct (@retry_once_after_401
              sample_search_config world_401_then_200 world_401_then_200
              "stale" JNull (JArr []) []
              (mkAuthResponse "fresh" "bearer" 3600 "read") [])
    as [Heq _]; try reflexivity.
  rewrite Heq. split; reflexivity.
Defined.

(** Events of one pass through the request chain: at most one exchange,
    then at most one request, sent with the configuration of the call. *)
Lemma requestChain_events config w :
  exists acq req,
    trace (snd (requestChain config w)) = (trace w ++ acq ++ req)%list
    /\ (acq = [] \/ acq = [EvTokenExchange])
    /\ (req = [] \/ exists t, req = [EvApiRequest (withAuthorization t config)])
    /\ (cached_token w = None -> acq = [EvTokenExchange]).
Proof.
  rewrite requestChain_eq.
  destruct (cached_token w) as [t |] eqn:Hc.
  - rewrite (getAccessToken_cached _ Hc), dispatchRequest_eq. cbn.
    exists [], [EvApiRequest (withAuthorization t config)].
    repeat split; eauto. discriminate.
  - rewrite (getAccessToken_empty _ Hc).
    destruct (authUpstream w) as [| [body | message] rest].
    + exists [EvTokenExchange], []. cbn. rewrite ?app_nil_r. auto.
    + rewrite dispatchRequest_eq. cbn.
      exists [EvTokenExchange],
             [EvApiRequest (withAuthorization (access_token body) config)].
      rewrite <- app_assoc. repeat split; eauto.
    + exists [EvTokenExchange], []. cbn. rewrite ?app_nil_r. auto.
Qed.

(** Counting in an explicit list of events, given the flag of the call. *)
Ltac count_events Hflag :=
  unfold api_requests, retried_requests, token_clears; cbn;
  rewrite ?Hflag; cbn; repeat split; lia || reflexivity.

(** C2.  At most one retry per outbound call: its events contain at most
    two requests, at most one of them flagged as a retry and that one sent
    after the token was cleared; a failure of a call already retried and any
    failure other than a 401 are returned as they are, in the world the
    failed request left; and when the API answers 401 twice the second 401
    is returned after exactly one retry, the next answer being left
    unconsumed. *)
Theorem at_most_one_retry :
  (forall config w,
     __isRetry config = false ->
     exists new,
       trace (snd (api config w)) = (trace w ++ new)%list
       /\ api_requests new <= 2
       /\ retried_requests new <= 1
       /\ token_clears new <= 1
       /\ retry_follows_clear false new = true)
  /\ (forall config w e w1,
        requestChain config w = (inl e, w1) ->
        __isRetry config = true \/ error_status e <> Some 401 ->
        api config w = (inl e, w1))
  /\ (forall config w w1 token first_body second_body answers grant grants,
        __isRetry config = false ->
        getAccessToken w = (inr token, w1) ->
        apiUpstream w =
          Responded 401 first_body :: Responded 401 second_body :: answers ->
        authUpstream w1 = AuthGranted grant :: grants ->
        let first := withAuthorization token config in
        let second :=
          withAuthorization (access_token grant) (markRetry first) in
        api config w =
          (inl (AxiosError "Request failed with status code 401"
                           (Some (401, second_body)) (Some second)),
           mkWorld (Some (access_token grant)) (requestCount w) grants answers
                   (trace w1 ++ [EvApiRequest first; EvTokenCleared;
                                 EvTokenExchange; EvApiRequest second]))).
Proof.
  split; [| split].
  - intros config w Hfresh. rewrite api_two_passes.
    destruct (requestChain_events config w)
      as (acq & req & Htrace & Hacq & Hreq & _).
    destruct (requestChain config w) as [[e | response] w1] eqn:Hchain;
      cbn [snd] in *.
    2: { exists (acq ++ req)%list. split; [exact Htrace |].
         destruct Hacq as [-> | ->]; destruct Hreq as [-> | [t ->]];
           count_events Hfresh. }
    destruct (retryTarget e) as [c |] eqn:Hretry; cbn [snd].
    2: { exists (acq ++ req)%list. split; [exact Htrace |].
         destruct Hacq as [-> | ->]; destruct Hreq as [-> | [t ->]];
           count_events Hfresh. }
    destruct (requestChain_events (markRetry c) (snd (clearToken w1)))
      as (acq2 & req2 & Htrace2 & Hacq2 & Hreq2 & _).
    exists (acq ++ req ++ [EvTokenCleared] ++ acq2 ++ req2)%list.
    split.
    + rewrite Htrace2. cbn [clearToken snd emit trace set_accessToken].
      rewrite Htrace. rewrite <- !app_assoc. reflexivity.
    + destruct Hacq as [-> | ->]; destruct Hreq as [-> | [t ->]];
        destruct Hacq2 as [-> | ->]; destruct Hreq2 as [-> | [t2 ->]];
        count_events Hfresh.
  - intros config w e w1 Hchain Hterminal. rewrite api_eq, Hchain.
    destruct (retryTarget e) as [c |] eqn:Hretry; [| reflexivity].
    exfalso. destruct Hterminal as [Hflag | Hstatus].
    + destruct (requestChain_retryTarget _ _ Hchain Hretry). congruence.
    + apply Hstatus. unfold retryTarget in Hretry.
      destruct (error_status e) as [st |]; [| discriminate].
      destruct (error_config e); [| discriminate].
      destruct (Nat.eqb_spec st 401); [congruence | discriminate].
  - intros config w w1 token first_body second_body answers grant grants
           Hfresh Hacq Hapi Hauth first second.
    destruct (getAccessToken_frame _ Hacq) as [Hup Hcount].
    rewrite api_two_passes, requestChain_eq, Hacq, dispatchRequest_eq.
    rewrite Hup, Hapi. cbn [hd tl]. rewrite settle_401.
    unfold retryTarget. cbn [error_status error_config].
    cbn [Nat.eqb withAuthorization __isRetry]. rewrite Hfresh.
    cbn [negb andb].
    rewrite requestChain_eq.
    rewrite getAccessToken_empty by reflexivity.
    cbn [clearToken snd emit set_accessToken authUpstream accessToken
         requestCount apiUpstream trace].
    rewrite Hauth. rewrite dispatchRequest_eq.
    cbn [accessToken requestCount authUpstream apiUpstream trace hd tl].
    rewrite settle_401. rewrite Hcount. unfold first, second.
    rewrite <- !app_assoc. reflexivity.
Qed.

Lemma at_most_one_retry_witness :
  (exists new,
     trace (snd (api sample_search_config world_401_twice))
     = (trace world_401_twice ++ new)%list
     /\ api_requests new <= 2
     /\ retried_requests new <= 1
     /\ token_clears new <= 1
     /\ retry_follows_clear false new = true)
  /\ api (markRetry sample_search_config) world_401_on_retried
     = (inl (AxiosError "Request failed with status code 401"
                        (Some (401, JNull))
                        (Some (withAuthorization "t"
                                 (markRetry sample_search_config)))),
        mkWorld (Some "t") 0 [] [Responded 200 (JArr [])]
                [EvApiRequest (withAuthorization "t"
                                 (markRetry sample_search_config))])
  /\ api sample_search_config world_401_twice
     = (inl (AxiosError "Request failed with status code 401"
                        (Some (401, JNull))
                        (Some (withAuthorization "fresh"
                                 (markRetry sample_search_config)))),
        mkWorld (Some "fresh") 0 [] [Responded 200 (JArr [])]
                [EvApiRequest (withAuthorization "stale" sample_search_config);
                 EvTokenCleared; EvTokenExchange;
                 EvApiRequest (withAuthorization "fresh"
                                 (markRetry sample_search_config))]).
Proof.
  destruct at_most_one_retry as (Hbound & Hterminal & Htwice).
  split; [| split].
  - apply Hbound. reflexivity.
  - apply Hterminal; [reflexivity | left; reflexivity].
  - apply (Htwice sample_search_config world_401_twice world_401_twice
                  "stale" JNull JNull [Responded 200 (JArr [])]
                  (mkAuthResponse "fresh" "bearer" 3600 "read") []);
      reflexivity.
Defined.

(** ** Conversion to strings *)

(** Induction on values that goes through the entries of arrays. *)
Lemma Json_entries_ind (P : Json -> Prop) :
  P JNull -> (forall b, P (JBool b)) -> (forall q, P (JNum q)) ->
  (forall s, P (JStr s)) ->
  (forall items, Forall P items -> P (JArr items)) ->
  (forall fields, P (JObj fields)) ->
  forall v, P v.
Proof.
  intros HNull HBool HNum HStr HArr HObj.
  fix IH 1.
  intros [| b | q | s | items | fields];
    [exact HNull | apply HBool | apply HNum | apply HStr | | apply HObj].
  apply HArr. induction items as [| i rest IHrest]; constructor;
    [apply IH | exact IHrest].
Qed.

Section Conversion.

Variable number_to_string : Q -> string.

(** The conversion succeeds, with the expected text, exactly on the
    convertible values; otherwise it throws the engine's TypeError. *)
Lemma to_string_convertible (v : Json) :
  to_string number_to_string v
  = if convertible v then inr (text_of number_to_string v)
    else inl (TypeError "Cannot convert object to primitive value").
Proof.
  induction v as [| b | q | s | items IH | fields] using Json_entries_ind.
  - reflexivity.
  - destruct b; reflexivity.
  - reflexivity.
  - reflexivity.
  - cbn [to_string convertible text_of].
    induction IH as [| i rest Hhead _ IHrest]; [reflexivity |].
    cbn [forallb map].
    assert (Hi : match i with
                 | JNull => inr EmptyString
                 | _ => to_string number_to_string i
                 end
                 = if match i with JNull => true | _ => convertible i end
                   then inr (match i with
                             | JNull => EmptyString
                             | _ => text_of number_to_string i
                             end)
                   else inl (TypeError
                               "Cannot convert object to primitive value")).
    { destruct i; try reflexivity; exact Hhead. }
    rewrite Hi.
    destruct (match i with JNull => true | _ => convertible i end);
      [| reflexivity].
    cbn [andb].
    match type of IHrest with
    | match ?entries with _ => _ end = _ =>
        destruct entries as [e | parts] eqn:Hentries
    end.
    + destruct (forallb _ rest); [discriminate | exact IHrest].
    + destruct (forallb _ rest); [| discriminate].
      injection IHrest as IHrest.
      destruct rest as [| j rest'].
      * cbn in Hentries. injection Hentries as <-. reflexivity.
      * destruct parts as [| p parts'].
        -- cbn in Hentries.
           destruct (match j with JNull => _ | _ => _ end);
             [discriminate |].
           match type of Hentries with
           | match ?x with _ => _ end = _ => destruct x; discriminate
           end.
        -- cbn [join map] in *. now rewrite IHrest.
  - cbn. destruct (assoc "toString" fields); reflexivity.
Qed.

Lemma template_convertible (v : JsValue) :
  template number_to_string v
  = if convertible_value v then inr (text_of_value number_to_string v)
    else inl (TypeError "Cannot convert object to primitive value").
Proof.
  destruct v as [j |]; [apply to_string_convertible | reflexivity].
Qed.

Lemma template_text (v : JsValue) :
  convertible_value v = true ->
  template number_to_string v = inr (text_of_value number_to_string v).
Proof. intros H. now rewrite template_convertible, H. Qed.

Lemma template_throws (v : JsValue) :
  convertible_value v = false ->
  template number_to_string v
  = inl (TypeError "Cannot convert object to primitive value").
Proof. intros H. now rewrite template_convertible, H. Qed.

End Conversion.

(** ** Tool calls and the pipeline *)

Lemma ret_preserving {A} (a : A) : world_preserving (ret a).
Proof. intros w. reflexivity. Qed.

Lemma throw_preserving {A} (e : Exn) : world_preserving (@throw A e).
Proof. intros w. reflexivity. Qed.

Lemma lift_preserving {A} (r : Exn + A) : world_preserving (lift r).
Proof. intros w. reflexivity. Qed.

Lemma bind_preserving {A B} (m : M A) (k : A -> M B) :
  world_preserving m -> (forall a, world_preserving (k a)) ->
  world_preserving (bind m k).
Proof.
  intros Hm Hk w. unfold bind. specialize (Hm w).
  destruct (m w) as [[e | a] w1]; cbn in *; subst; [reflexivity | apply Hk].
Qed.

Create HintDb preserving.

#[local] Hint Resolve ret_preserving throw_preserving lift_preserving
  bind_preserving : preserving.

(** A handler of the shape [try { r = await api(...); rest } catch { ... }]
    changes the world exactly as its one pipeline call does. *)
Lemma try_api_world {A} (call : M Response) (k : Response -> M A)
      (h : Exn -> M A) w :
  (forall r, world_preserving (k r)) ->
  (forall e, world_preserving (h e)) ->
  snd (try_catch (bind call k) h w) = snd (call w).
Proof.
  intros Hk Hh. unfold try_catch, bind.
  destruct (call w) as [[e | r] w1]; cbn.
  - apply Hh.
  - specialize (Hk r w1).
    destruct (k r w1) as [[e | a] w2]; cbn in *; subst;
      [apply Hh | reflexivity].
Qed.

Section ToolCalls.

Variable number_to_string : Q -> string.

Lemma handleCreateCustomer_world args context w :
  exists config,
    __isRetry config = false
    /\ snd (handleCreateCustomer number_to_string args context w)
       = snd (api config w).
Proof.
  eexists. split; [| apply try_api_world; auto with preserving].
  reflexivity.
Qed.

Lemma handleDocumentTypes_world context w :
  exists config,
    __isRetry config = false
    /\ snd (handleDocumentTypes number_to_string context w)
       = snd (api config w).
Proof.
  eexists. split; [| apply try_api_world; auto with preserving].
  reflexivity.
Qed.

Lemma handlePaymentsMethods_world context w :
  exists config,
    __isRetry config = false
    /\ snd (handlePaymentsMethods number_to_string context w)
       = snd (api config w).
Proof.
  eexists. split; [| apply try_api_world; auto with preserving].
  reflexivity.
Qed.

Lemma handleSearchDocumentation_world args context w :
  exists config,
    __isRetry config = false
    /\ snd (handleSearchDocumentation number_to_string args context w)
       = snd (api config w).
Proof.
  eexists. split.
  2: { apply try_api_world; [| auto with preserving].
       intros r. destruct (response_data r) as [| | | | [| item items] |];
         auto with preserving. }
  reflexivity.
Qed.

(** A tool call registers itself and then goes through the pipeline at
    most once, with a configuration not marked as retried. *)
Lemma callTool_world request w :
  snd (callTool number_to_string request w) = registered w
  \/ exists config,
       __isRetry config = false
       /\ snd (callTool number_to_string request w)
          = snd (api config (registered w)).
Proof.
  unfold callTool, bind, createRequestContext.
  fold (registered w).
  set (context := mkContext _ _).
  assert (Hcatch : forall (body : M ToolResponse) w0 h,
             (forall e, world_preserving (h e)) ->
             snd (try_catch body h w0) = snd (body w0)).
  { intros body w0 h Hh. unfold try_catch.
    destruct (body w0) as [[e | a] w1]; cbn; [apply Hh | reflexivity]. }
  rewrite Hcatch.
  2: { intros [message response config | code message | message];
         cbv beta iota zeta; auto with preserving.
       intros w0. unfold lift. destruct (template _ _); reflexivity. }
  destruct (name request =? "search_documentation").
  { destruct (isSearchDocumentationArgs (arguments request)).
    - right. apply handleSearchDocumentation_world.
    - left. reflexivity. }
  destruct (name request =? "payments_methods").
  { right. apply handlePaymentsMethods_world. }
  destruct (name request =? "document_types").
  { right. apply handleDocumentTypes_world. }
  destruct (name request =? "create_customer").
  { right. apply handleCreateCustomer_world. }
  left. reflexivity.
Qed.

End ToolCalls.

(** ** Token reuse *)

Lemma cached_token_present w t :
  accessToken w = Some t -> truthy_string t = true ->
  cached_token w = Some t.
Proof. intros Ht Hn. unfold cached_token. rewrite Ht, Hn. reflexivity. Qed.

Lemma no_401_head n w :
  no_401_among (S n) w ->
  is_401 (hd (NoResponse "Network Error") (apiUpstream w)) = false.
Proof.
  unfold no_401_among. destruct (apiUpstream w) as [| o rest]; cbn.
  - reflexivity.
  - intros H. apply andb_true_iff in H as [H _].
    now apply negb_true_iff in H.
Qed.

Lemma no_401_tail n w token count grants t :
  no_401_among (S n) w ->
  no_401_among n (mkWorld token count grants (tl (apiUpstream w)) t).
Proof.
  unfold no_401_among. cbn. destruct (apiUpstream w) as [| o rest]; cbn.
  - now rewrite firstn_nil.
  - intros H. now apply andb_true_iff in H as [_ H].
Qed.

Lemma no_401_registered n w :
  no_401_among (S n) w -> no_401_among n (registered w).
Proof.
  unfold no_401_among. cbn [registered apiUpstream].
  generalize (apiUpstream w). induction n as [| n IH]; intros answers.
  - reflexivity.
  - destruct answers as [| o rest]; [reflexivity |].
    change (firstn (S (S n)) (o :: rest)) with (o :: firstn (S n) rest).
    change (firstn (S n) (o :: rest)) with (o :: firstn n rest).
    cbn [forallb]. intros H. apply andb_true_iff in H as [Ho H].
    rewrite Ho. exact (IH rest H).
Qed.

(** Without a 401 the pipeline is one pass through the request chain. *)
Lemma api_without_401 n config w :
  no_401_among (S n) w -> api config w = requestChain config w.
Proof.
  intros Hnone. rewrite api_eq.
  destruct (requestChain config w) as [[e | response] w1] eqn:Hchain;
    [| reflexivity].
  rewrite requestChain_eq in Hchain.
  destruct (getAccessToken w) as [[e' | token] w'] eqn:Hacq.
  - inversion Hchain; subst.
    now rewrite (getAccessToken_error_no_retry _ Hacq).
  - rewrite dispatchRequest_eq in Hchain. inversion Hchain as [[Hs Hw]].
    rewrite (retryTarget_settle _ _ Hs).
    destruct (getAccessToken_frame _ Hacq) as [-> _].
    now rewrite (no_401_head Hnone).
Qed.

Lemma api_reuses_token n config w t :
  no_401_among (S n) w -> cached_token w = Some t ->
  snd (api config w)
  = mkWorld (accessToken w) (requestCount w) (authUpstream w)
            (tl (apiUpstream w))
            (trace w ++ [EvApiRequest (withAuthorization t config)]).
Proof.
  intros Hnone Hc.
  rewrite (api_without_401 _ Hnone), requestChain_eq.
  rewrite (getAccessToken_cached _ Hc), dispatchRequest_eq. reflexivity.
Qed.

Lemma api_first_exchange n config w body rest :
  no_401_among (S n) w -> cached_token w = None ->
  authUpstream w = AuthGranted body :: rest ->
  snd (api config w)
  = mkWorld (Some (access_token body)) (requestCount w) rest
            (tl (apiUpstream w))
            (trace w ++ [EvTokenExchange;
                         EvApiRequest
                           (withAuthorization (access_token body) config)]).
Proof.
  intros Hnone Hc Hauth.
  rewrite (api_without_401 _ Hnone), requestChain_eq.
  rewrite (getAccessToken_empty _ Hc), Hauth, dispatchRequest_eq. cbn.
  rewrite <- app_assoc. reflexivity.
Qed.

Section TokenReuse.

Variable number_to_string : Q -> string.

(** With a token in the cache a tool call performs no exchange and leaves
    the token where it is. *)
Lemma callTool_warm n request w t :
  no_401_among (S n) w -> cached_token w = Some t ->
  no_401_among n (snd (callTool number_to_string request w))
  /\ cached_token (snd (callTool number_to_string request w)) = Some t
  /\ exists new,
       trace (snd (callTool number_to_string request w))
       = (trace w ++ new)%list
       /\ token_exchanges new = 0.
Proof.
  intros Hnone Hc.
  destruct (callTool_world number_to_string request w)
    as [-> | (config & _ & ->)].
  - repeat split; [now apply no_401_registered | assumption |].
    exists []. now rewrite app_nil_r.
  - rewrite (@api_reuses_token n config (registered w) t); try assumption.
    repeat split.
    + now apply no_401_tail.
    + exact Hc.
    + eexists. split; reflexivity.
Qed.

(** With an empty cache and a first exchange that yields a non-empty
    token, a tool call either performs no exchange at all or performs that
    one and leaves its token in the cache. *)
Lemma callTool_cold n request w body rest :
  no_401_among (S n) w -> cached_token w = None ->
  authUpstream w = AuthGranted body :: rest ->
  truthy_string (access_token body) = true ->
  no_401_among n (snd (callTool number_to_string request w))
  /\ exists new,
       trace (snd (callTool number_to_string request w))
       = (trace w ++ new)%list
       /\ ((token_exchanges new = 0
            /\ cached_token (snd (callTool number_to_string request w)) = None
            /\ authUpstream (snd (callTool number_to_string request w))
               = AuthGranted body :: rest)
           \/ (token_exchanges new = 1
               /\ cached_token (snd (callTool number_to_string request w))
                  = Some (access_token body))).
Proof.
  intros Hnone Hc Hauth Htoken.
  destruct (callTool_world number_to_string request w)
    as [-> | (config & _ & ->)].
  - split; [now apply no_401_registered |]. exists []. rewrite app_nil_r.
    split; [reflexivity |]. left. auto.
  - rewrite (@api_first_exchange n config (registered w) body rest);
      try assumption.
    split; [now apply no_401_tail |].
    eexists. split; [reflexivity |]. right. split; [reflexivity |].
    now apply cached_token_present.
Qed.

End TokenReuse.

Lemma token_exchanges_app (a b : list Event) :
  token_exchanges (a ++ b) = token_exchanges a + token_exchanges b.
Proof.
  unfold token_exchanges. now rewrite filter_app, length_app.
Qed.

(** C3, as stated, fails: with a granted first exchange, two tool calls in
    a row perform two exchanges when the first API request is answered 401,
    and also when the granted token is the empty string. *)
Lemma token_reuse_counterexample :
  ~ token_exchanges
      (trace (after_calls integer_to_string
                [list_document_types; list_document_types]
                world_granted_then_401)) <= 1
  /\ ~ token_exchanges
         (trace (after_calls integer_to_string
                   [list_document_types; list_document_types]
                   world_granted_empty_token)) <= 1.
Proof.
  split; vm_compute; lia.
Qed.

(** C3, amended.  [getAccessToken] returns a cached non-empty token without
    any exchange; with an empty cache it performs one exchange and stores
    and returns the granted token; and when neither of the next two answers
    of the API is a 401 and the token in the cache, or else the one the
    first exchange grants, is non-empty, two tool calls made one after the
    other perform at most one exchange in total. *)
Theorem token_reuse :
  (forall w t,
     accessToken w = Some t -> truthy_string t = true ->
     getAccessToken w = (inr t, w))
  /\ (forall w body rest,
        cached_token w = None ->
        authUpstream w = AuthGranted body :: rest ->
        getAccessToken w =
          (inr (access_token body),
           mkWorld (Some (access_token body)) (requestCount w) rest
                   (apiUpstream w) (trace w ++ [EvTokenExchange])))
  /\ (forall number_to_string w first second,
        no_401_among 2 w ->
        (exists t, accessToken w = Some t /\ truthy_string t = true)
        \/ (cached_token w = None
            /\ exists body rest,
                 authUpstream w = AuthGranted body :: rest
                 /\ truthy_string (access_token body) = true) ->
        exists new,
          trace (after_calls number_to_string [first; second] w)
          = (trace w ++ new)%list
          /\ token_exchanges new <= 1).
Proof.
  split; [| split].
  - intros w t Ht Hn. apply getAccessToken_cached.
    now apply cached_token_present.
  - intros w body rest Hc Hauth.
    now rewrite (getAccessToken_empty _ Hc), Hauth.
  - intros render w first second Hnone Hstart. cbn [after_calls fold_left].
    destruct Hstart as [(t & Ht & Hn) | (Hc & body & rest & Hauth & Hn)].
    + pose proof (cached_token_present _ Ht Hn) as Hc.
      destruct (callTool_warm render first Hnone Hc)
        as (Hnone1 & Hc1 & new1 & Htrace1 & Hcount1).
      destruct (callTool_warm render second Hnone1 Hc1)
        as (_ & _ & new2 & Htrace2 & Hcount2).
      exists (new1 ++ new2)%list. split.
      * rewrite Htrace2, Htrace1. now rewrite app_assoc.
      * rewrite token_exchanges_app. lia.
    + destruct (callTool_cold render first Hnone Hc Hauth Hn)
        as (Hnone1 & new1 & Htrace1 & Hcase).
      destruct Hcase as [(Hcount1 & Hc1 & Hauth1) | (Hcount1 & Hc1)].
      * destruct (callTool_cold render second Hnone1 Hc1 Hauth1 Hn)
          as (_ & new2 & Htrace2 & Hcase2).
        exists (new1 ++ new2)%list. split.
        -- rewrite Htrace2, Htrace1. now rewrite app_assoc.
        -- rewrite token_exchanges_app.
           destruct Hcase2 as [(Hcount2 & _) | (Hcount2 & _)]; lia.
      * destruct (callTool_warm render second Hnone1 Hc1)
          as (_ & _ & new2 & Htrace2 & Hcount2).
        exists (new1 ++ new2)%list. split.
        -- rewrite Htrace2, Htrace1. now rewrite app_assoc.
        -- rewrite token_exchanges_app. lia.
Qed.

Lemma token_reuse_witness :
  getAccessToken world_401_on_retried = (inr "t", world_401_on_retried)
  /\ getAccessToken world_granted_then_200
     = (inr "first",
        mkWorld (Some "first") 0 [sample_grant "second"]
                [Responded 200 (JArr []); Responded 200 (JArr [])]
                [EvTokenExchange])
  /\ exists new,
       trace (after_calls integer_to_string
                [list_document_types; list_document_types]
                world_granted_then_200)
       = (trace world_granted_then_200 ++ new)%list
       /\ token_exchanges new <= 1.
Proof.
  destruct token_reuse as (Hcached & Hempty & Htwo).
  split; [| split].
  - apply Hcached; reflexivity.
  - apply (Hempty world_granted_then_200
                  (mkAuthResponse "first" "bearer" 3600 "read")
                  [sample_grant "second"]); reflexivity.
  - apply Htwo; [reflexivity |]. right. split; [reflexivity |].
    exists (mkAuthResponse "first" "bearer" 3600 "read"),
           [sample_grant "second"].
    split; reflexivity.
Defined.

(** ** The handlers never throw *)

Lemma try_catch_failed_call {A} (call : M Response) (k : Response -> M A)
      (h : Exn -> M A) w e w1 :
  call w = (inl e, w1) ->
  try_catch (bind call k) h w = h e w1.
Proof.
  intros H. unfold try_catch, bind. now rewrite H.
Qed.

(** The handler of create_customer always returns an envelope, and one
    without [isError]. *)
Lemma handleCreateCustomer_returns number_to_string args context w :
  exists r,
    fst (handleCreateCustomer number_to_string args context w) = inr r
    /\ isError r = None.
Proof.
  unfold handleCreateCustomer, try_catch, bind, api_post, lift, ret.
  destruct (api _ w) as [[e | response] w1]; [cbn; eauto |].
  destruct (get (Some (response_data response)) "user_id") as [e | user_id];
    [cbn; eauto |].
  destruct (template number_to_string user_id); cbn; eauto.
Qed.

(** C5.  Each handler returns an envelope whatever happens to its upstream
    call, never an exception.  When the pipeline call fails, the handlers
    of create_customer, document_types and payments_methods return their
    fixed text in an envelope without [isError]; the handler of
    search_documentation returns an envelope whose [isError] is true. *)
Theorem handlers_swallow_failures (number_to_string : Q -> string) :
  (forall args context w,
     exists r,
       fst (handleCreateCustomer number_to_string args context w) = inr r
       /\ isError r = None)
  /\ (forall context w,
        exists r,
          fst (handleDocumentTypes number_to_string context w) = inr r
          /\ isError r = None)
  /\ (forall context w,
        exists r,
          fst (handlePaymentsMethods number_to_string context w) = inr r
          /\ isError r = None)
  /\ (forall args context w,
        exists r,
          fst (handleSearchDocumentation number_to_string args context w)
          = inr r)
  /\ (forall args context w e w1,
        api_post "https://api.mercadopago.com/v1/customers"
                 (JObj (field "email" (get_optional args "email"))) w
        = (inl e, w1) ->
        handleCreateCustomer number_to_string args context w
        = (inr (mkToolResponse
                  [mkText "text" "No document types found. Try again later."]
                  None), w1))
  /\ (forall context w e w1,
        api_get "https://api.mercadopago.com/v1/identification_types" [] w
        = (inl e, w1) ->
        handleDocumentTypes number_to_string context w
        = (inr (mkToolResponse
                  [mkText "text" "No document types found. Try again later."]
                  None), w1))
  /\ (forall context w e w1,
        api_get "https://api.mercadopago.com/v1/payment_methods" [] w
        = (inl e, w1) ->
        handlePaymentsMethods number_to_string context w
        = (inr (mkToolResponse
                  [mkText "text" "No payments found. Try again later."]
                  None), w1))
  /\ (forall args context w e w1,
        api_get "/docs/v1/search"
                (field "term" (prop args "query")
                   ++ field "lang" (prop args "language")
                   ++ field "siteId" (prop args "siteId")
                   ++ field "maxResults"
                        (js_or (prop args "limit") (Some (JNum 10))))%list w
        = (inl e, w1) ->
        handleSearchDocumentation number_to_string args context w
        = (inr (mkToolResponse
                  [mkText "text"
                          ("Error searching documentation: "
                             ++ exn_message e)]
                  (Some true)), w1)).
Proof.
  split; [| split; [| split; [| split; [| split; [| split; [| split]]]]]].
  - intros args context w. apply handleCreateCustomer_returns.
  - intros context w.
    unfold handleDocumentTypes, try_catch, bind, api_get, lift, ret.
    destruct (api _ w) as [[e | response] w1]; [cbn; eauto |].
    destruct (data_map _ (response_data response)); cbn; eauto.
  - intros context w.
    unfold handlePaymentsMethods, try_catch, bind, api_get, lift, ret.
    destruct (api _ w) as [[e | response] w1]; [cbn; eauto |].
    destruct (data_map _ (response_data response)); cbn; eauto.
  - intros args context w. unfold handleSearchDocumentation, try_catch.
    match goal with |- context [bind ?c ?k w] =>
      destruct (bind c k w) as [[e | r] w1] end; cbn; eauto.
  - intros args context w e w1 H. unfold handleCreateCustomer.
    now rewrite (@try_catch_failed_call _ _ _ _ _ _ _ H).
  - intros context w e w1 H. unfold handleDocumentTypes.
    now rewrite (@try_catch_failed_call _ _ _ _ _ _ _ H).
  - intros context w e w1 H. unfold handlePaymentsMethods.
    now rewrite (@try_catch_failed_call _ _ _ _ _ _ _ H).
  - intros args context w e w1 H. unfold handleSearchDocumentation.
    now rewrite (@try_catch_failed_call _ _ _ _ _ _ _ H).
Qed.

Lemma handlers_swallow_failures_witness :
  fst (handleCreateCustomer integer_to_string (Some (JObj []))
         (sample_context "create_customer") world_customer_refused)
  = inr (mkToolResponse
           [mkText "text" "No document types found. Try again later."] None)
  /\ fst (handleDocumentTypes integer_to_string
            (sample_context "document_types") world_customer_refused)
     = inr (mkToolResponse
              [mkText "text" "No document types found. Try again later."]
              None)
  /\ fst (handlePaymentsMethods integer_to_string
            (sample_context "payments_methods") world_customer_refused)
     = inr (mkToolResponse
              [mkText "text" "No payments found. Try again later."] None)
  /\ fst (handleSearchDocumentation integer_to_string search_arguments
            (sample_context "search_documentation") world_customer_refused)
     = inr (mkToolResponse
              [mkText "text"
                 "Error searching documentation: Request failed with status code 400"]
              (Some true)).
Proof.
  destruct (handlers_swallow_failures integer_to_string)
    as (_ & _ & _ & _ & Hcustomer & Htypes & Hpayments & Hsearch).
  split; [| split; [| split]].
  - erewrite Hcustomer by (vm_compute; reflexivity). reflexivity.
  - erewrite Htypes by (vm_compute; reflexivity). reflexivity.
  - erewrite Hpayments by (vm_compute; reflexivity). reflexivity.
  - erewrite Hsearch by (vm_compute; reflexivity). reflexivity.
Defined.

(** ** create_customer *)

(** C6, as stated, fails: when the POST succeeds with a body that has no
    [user_id], the handler does not return the fallback text but a
    confirmation that carries the text of [undefined]. *)
Lemma create_customer_malformed_body_counterexample :
  fst (handleCreateCustomer integer_to_string customer_arguments
         (sample_context "create_customer") world_customer_without_id)
  = inr (text_response "Customer created successfully with id: undefined")
  /\ fst (handleCreateCustomer integer_to_string customer_arguments
            (sample_context "create_customer") world_customer_without_id)
     <> inr (text_response "No document types found. Try again later.").
Proof.
  split; vm_compute; [reflexivity | discriminate].
Qed.

(** C6, amended.  When the pipeline call of create_customer fails, or
    succeeds with the body [null], or succeeds with a body whose [user_id]
    cannot be converted to a string, the handler returns the fixed text
    "No document types found. Try again later."; when it succeeds with any
    other body the handler returns the confirmation followed by the text of
    the body's [user_id], so in particular by the returned identifier when
    there is one. *)
Theorem create_customer_result (number_to_string : Q -> string)
  (args : JsValue) (context : RequestContext) (w w1 : World) :
  let call :=
    api_post "https://api.mercadopago.com/v1/customers"
             (JObj (field "email" (get_optional args "email"))) in
  let fallback :=
    text_response "No document types found. Try again later." in
  (forall e,
     call w = (inl e, w1) ->
     handleCreateCustomer number_to_string args context w
     = (inr fallback, w1))
  /\ (forall response,
        call w = (inr response, w1) ->
        response_data response = JNull ->
        handleCreateCustomer number_to_string args context w
        = (inr fallback, w1))
  /\ (forall response,
        call w = (inr response, w1) ->
        convertible_value (prop (Some (response_data response)) "user_id")
        = false ->
        handleCreateCustomer number_to_string args context w
        = (inr fallback, w1))
  /\ (forall response,
        call w = (inr response, w1) ->
        response_data response <> JNull ->
        convertible_value (prop (Some (response_data response)) "user_id")
        = true ->
        handleCreateCustomer number_to_string args context w
        = (inr (text_response
                  ("Customer created successfully with id: "
                     ++ text_of_value number_to_string
                          (prop (Some (response_data response)) "user_id"))),
           w1))
  /\ (forall response fields id,
        call w = (inr response, w1) ->
        response_data response = JObj fields ->
        assoc "user_id" fields = Some id ->
        convertible id = true ->
        handleCreateCustomer number_to_string args context w
        = (inr (text_response
                  ("Customer created successfully with id: "
                     ++ text_of number_to_string id)),
           w1)).
Proof.
  intros call fallback. unfold handleCreateCustomer, try_catch, bind.
  fold call. repeat split.
  - intros e H. now rewrite H.
  - intros response H Hnull. rewrite H, Hnull. reflexivity.
  - intros response H Hbad. rewrite H.
    destruct (response_data response); try discriminate Hbad;
      try reflexivity.
    unfold lift, get. now rewrite (template_throws _ _ Hbad).
  - intros response H Hbody Hgood. rewrite H.
    assert (Hget : get (Some (response_data response)) "user_id"
                   = inr (prop (Some (response_data response)) "user_id")).
    { destruct (response_data response); try reflexivity. congruence. }
    unfold lift. rewrite Hget, (template_text _ _ Hgood). reflexivity.
  - intros response fields id H Hbody Hid Hgood. rewrite H, Hbody.
    unfold lift. cbn [get prop]. rewrite Hid.
    cbn [template]. rewrite to_string_convertible, Hgood. reflexivity.
Qed.

Lemma create_customer_result_witness :
  fst (handleCreateCustomer integer_to_string (Some (JObj []))
         (sample_context "create_customer") world_customer_refused)
  = inr (text_response "No document types found. Try again later.")
  /\ fst (handleCreateCustomer integer_to_string customer_arguments
            (sample_context "create_customer") world_customer_null_body)
     = inr (text_response "No document types found. Try again later.")
  /\ fst (handleCreateCustomer integer_to_string customer_arguments
            (sample_context "create_customer") world_customer_odd_id)
     = inr (text_response "No document types found. Try again later.")
  /\ fst (handleCreateCustomer integer_to_string customer_arguments
            (sample_context "create_customer") world_customer_without_id)
     = inr (text_response "Customer created successfully with id: undefined")
  /\ fst (handleCreateCustomer integer_to_string customer_arguments
            (sample_context "create_customer") world_customer_created)
     = inr (text_response "Customer created successfully with id: 42").
Proof.
  split; [| split; [| split; [| split]]].
  - erewrite (proj1 (@create_customer_result integer_to_string
                       (Some (JObj [])) (sample_context "create_customer")
                       world_customer_refused _)).
    2: vm_compute; reflexivity.
    reflexivity.
  - erewrite (proj1 (proj2 (@create_customer_result integer_to_string
                              customer_arguments
                              (sample_context "create_customer")
                              world_customer_null_body _))).
    2: vm_compute; reflexivity.
    all: reflexivity.
  - erewrite (proj1 (proj2 (proj2 (@create_customer_result integer_to_string
                                     customer_arguments
                                     (sample_context "create_customer")
                                     world_customer_odd_id _)))).
    2: vm_compute; reflexivity.
    all: reflexivity.
  - erewrite (proj1 (proj2 (proj2 (proj2
                (@create_customer_result integer_to_string
                   customer_arguments (sample_context "create_customer")
                   world_customer_without_id _))))).
    2: vm_compute; reflexivity.
    + reflexivity.
    + discriminate.
    + reflexivity.
  - erewrite (proj2 (proj2 (proj2 (proj2
                (@create_customer_result integer_to_string
                   customer_arguments (sample_context "create_customer")
                   world_customer_created _))))).
    2: vm_compute; reflexivity.
    2: reflexivity.
    2: reflexivity.
    + reflexivity.
    + reflexivity.
Defined.

(** ** The dispatcher *)

(** C4, evaluated where it fails: a create_customer call without [email]
    is not rejected.  The handler runs, the POST is sent to the API with an
    empty body, and the caller receives an envelope, not an
    invalid-parameters error.  No create_customer call is ever rejected,
    whatever its arguments. *)
Theorem create_customer_without_email_reaches_api :
  callTool integer_to_string create_customer_without_email
           world_customer_refused
  = (inr (text_response "No document types found. Try again later."),
     mkWorld (Some "t") 1 [] []
             [EvApiRequest
                (mkConfig POST "https://api.mercadopago.com/v1/customers" []
                          (Some (JObj [])) (Some "Bearer t") false)])
  /\ forall number_to_string args w,
       exists r,
         fst (callTool number_to_string
                (mkToolRequest "create_customer" args) w) = inr r.
Proof.
  split; [vm_compute; reflexivity |].
  intros render args w.
  unfold callTool, bind, createRequestContext, try_catch. cbn [name arguments].
  change ("create_customer" =? "search_documentation") with false.
  change ("create_customer" =? "payments_methods") with false.
  change ("create_customer" =? "document_types") with false.
  change ("create_customer" =? "create_customer") with true.
  cbv iota.
  match goal with |- context [handleCreateCustomer render args ?c ?w0] =>
    destruct (handleCreateCustomer_returns render args c w0) as (r & Hr & _);
    destruct (handleCreateCustomer render args c w0) as [[e | r'] w1]
  end; cbn in *; [discriminate | eauto].
Qed.

Lemma includes_listed candidates v :
  includes candidates v = true ->
  exists s, v = Some (JStr s) /\ In s candidates.
Proof.
  destruct v as [[| b | q | s | items | fields] |]; cbn; try discriminate.
  intros H. apply existsb_exists in H as (s' & Hin & Heq).
  apply String.eqb_eq in Heq. subst. eauto.
Qed.

Lemma isSearchDocumentationArgs_refuses args :
  limit_out_of_range args \/ site_not_listed args \/ language_not_listed args ->
  isSearchDocumentationArgs args = false.
Proof.
  intros Hbad. unfold isSearchDocumentationArgs.
  destruct (negb (truthy args) || negb (typeof args =? "object"));
    [reflexivity |].
  cbv zeta.
  destruct Hbad as [(q & Hlimit & Hrange) | [Hsite | Hlanguage]].
  - rewrite Hlimit. cbn [is_undefined number_between_1_and_100 orb].
    assert (Qle_bool 1 q && Qle_bool q 100 = false) as ->.
    { apply andb_false_iff.
      destruct Hrange as [Hlow | Hhigh]; [left | right];
        apply not_true_is_false; rewrite Qle_bool_iff;
        now apply Qlt_not_le. }
    now rewrite andb_false_r.
  - destruct (includes VALID_SITES (prop args "siteId")) eqn:Hin.
    + apply includes_listed in Hin as (s & Hs & Hmember).
      exfalso. apply (Hsite s Hs). cbn in Hmember |- *. intuition.
    + now rewrite andb_false_r, andb_false_r.
  - destruct (includes ["es"; "pt"] (prop args "language")) eqn:Hin.
    + apply includes_listed in Hin as (s & Hs & Hmember).
      exfalso. exact (Hlanguage s Hs Hmember).
    + now rewrite andb_false_r.
Qed.

(** C7.  A search_documentation call whose [limit] is a number outside
    [1, 100], or whose [siteId] or [language] is not one of the enumerated
    strings, is rejected with the invalid-parameters error; only the request
    counter has moved, so neither an exchange nor an API request was sent. *)
Theorem search_rejects_invalid_arguments
  (number_to_string : Q -> string) (args : JsValue) (w : World) :
  limit_out_of_range args \/ site_not_listed args \/ language_not_listed args ->
  callTool number_to_string (mkToolRequest "search_documentation" args) w
  = (inl (McpError InvalidParams "Invalid search_documentation arguments"),
     registered w)
  /\ trace (registered w) = trace w
  /\ authUpstream (registered w) = authUpstream w
  /\ apiUpstream (registered w) = apiUpstream w.
Proof.
  intros Hbad. split; [| repeat split].
  unfold callTool, bind, createRequestContext, try_catch.
  cbn [name arguments]. change ("search_documentation" =? "search_documentation")
    with true. cbv iota.
  rewrite (isSearchDocumentationArgs_refuses Hbad). reflexivity.
Qed.

Lemma search_rejects_invalid_arguments_witness :
  callTool integer_to_string
           (mkToolRequest "search_documentation"
                          (search_arguments_with_limit 101))
           world_three_results
  = (inl (McpError InvalidParams "Invalid search_documentation arguments"),
     registered world_three_results)
  /\ callTool integer_to_string
              (mkToolRequest "search_documentation"
                             (search_arguments_for "es" "MLX"))
              world_three_results
     = (inl (McpError InvalidParams "Invalid search_documentation arguments"),
        registered world_three_results)
  /\ callTool integer_to_string
              (mkToolRequest "search_documentation"
                             (search_arguments_for "en" "MLA"))
              world_three_results
     = (inl (McpError InvalidParams "Invalid search_documentation arguments"),
        registered world_three_results).
Proof.
  split; [| split].
  - apply (@search_rejects_invalid_arguments integer_to_string
             (search_arguments_with_limit 101) world_three_results).
    left. exists 101%Q. split; [reflexivity |]. right. reflexivity.
  - apply (@search_rejects_invalid_arguments integer_to_string
             (search_arguments_for "es" "MLX") world_three_results).
    right. left. intros s Hs. injection Hs as <-. cbn.
    intros H. repeat destruct H as [H | H]; try discriminate H. exact H.
  - apply (@search_rejects_invalid_arguments integer_to_string
             (search_arguments_for "en" "MLA") world_three_results).
    right. right. intros s Hs. injection Hs as <-. cbn.
    intros H. repeat destruct H as [H | H]; try discriminate H. exact H.
Defined.

(** The bounds themselves are accepted, and so is a call without limit. *)
Example search_arguments_accepted :
  isSearchDocumentationArgs (search_arguments_with_limit 1) = true
  /\ isSearchDocumentationArgs (search_arguments_with_limit 100) = true
  /\ isSearchDocumentationArgs (search_arguments_for "pt" "MLB") = true
  /\ isSearchDocumentationArgs (search_arguments_with_limit 0) = false.
Proof. repeat split. Qed.

(** C8.  A call-tool request that names none of the four registered tools
    is answered with the method-not-found error, not with an envelope, and
    nothing was sent upstream. *)
Theorem unknown_tool_not_found
  (number_to_string : Q -> string) (tool : string) (args : JsValue)
  (w : World) :
  ~ In tool registered_tools ->
  callTool number_to_string (mkToolRequest tool args) w
  = (inl (McpError MethodNotFound ("Unknown tool: " ++ tool)), registered w).
Proof.
  intros Hunknown.
  assert (Hneq : forall known, In known registered_tools ->
                               (tool =? known) = false).
  { intros known Hin. apply String.eqb_neq. intros ->. contradiction. }
  unfold callTool, bind, createRequestContext, try_catch. cbn [name arguments].
  rewrite !Hneq by (cbn; auto).
  reflexivity.
Qed.

Lemma unknown_tool_not_found_witness :
  callTool integer_to_string (mkToolRequest "delete_customer" None)
           world_three_results
  = (inl (McpError MethodNotFound "Unknown tool: delete_customer"),
     registered world_three_results).
Proof.
  apply (@unknown_tool_not_found integer_to_string "delete_customer" None
           world_three_results).
  cbn. intros H. repeat destruct H as [H | H]; try discriminate H. exact H.
Defined.

(** ** The search digest *)

(** C9, evaluated where it fails.  Of three results the second has neither
    title nor content.  The digest starts with the heading and the
    subheading, renders "Untitled" and "No description available" for the
    other two, but the skipped result keeps its place in the joined list as
    an empty entry: two separators stand between the remaining blocks, and
    the subheading counts three results. *)
Theorem search_digest_keeps_place_of_skipped_result :
  fst (callTool integer_to_string
         (mkToolRequest "search_documentation" search_arguments)
         world_three_results)
  = inr (text_response
           ("# Search Results for " ++ DQUOTE ++ "checkout" ++ DQUOTE ++ LF
              ++ "Showing 3 results" ++ LF ++ LF
              ++ result_block
                   "Untitled" "First body"
                   "https://www.mercadopago.com.ar/developers/es/a" "0"
              ++ SEPARATOR ++ SEPARATOR
              ++ result_block
                   "Third" "No description available"
                   "https://www.mercadopago.com.ar/developers/es/c" "0")).
Proof. vm_compute. reflexivity. Qed.

(** ** Documentation URLs *)

(** C10.  For every site of [SiteId] the table holds a non-empty domain,
    and for that domain, every language of [Language] and every path,
    the empty one included, [buildDocumentationUrl] returns
    https://<domain>/developers/<language><path>. *)
Theorem buildDocumentationUrl_composes
  (number_to_string : Q -> string) (site : SiteId) (language : Language)
  (path : string) :
  exists domain,
    site_domain (Some (JStr (site_id_string site))) = Some (JStr domain)
    /\ domain <> EmptyString
    /\ buildDocumentationUrl number_to_string
         (Some (JStr domain)) (Some (JStr (language_string language)))
         (Some (JStr path))
       = inr ("https://" ++ domain ++ "/developers/"
                ++ language_string language ++ path).
Proof.
  destruct site; eexists; (split; [reflexivity |]);
    (split; [discriminate |]);
    destruct language, path; reflexivity.
Qed.

(** ** The argument guard of search_documentation *)

Lemma includes_iff candidates v :
  includes candidates v = true <->
  exists s, v = Some (JStr s) /\ In s candidates.
Proof.
  split; [apply includes_listed |].
  intros (s & -> & Hin). cbn. apply existsb_exists.
  exists s. split; [exact Hin | apply String.eqb_refl].
Qed.

Lemma typeof_string v :
  (typeof v =? "string") = true <-> exists s, v = Some (JStr s).
Proof.
  split.
  - destruct v as [[| b | q | s | items | fields] |]; cbn; try discriminate.
    eauto.
  - intros (s & ->). reflexivity.
Qed.

Lemma number_between_1_and_100_iff v :
  number_between_1_and_100 v = true <->
  exists q, v = Some (JNum q) /\ (1 <= q)%Q /\ (q <= 100)%Q.
Proof.
  split.
  - destruct v as [[| b | q | s | items | fields] |]; cbn; try discriminate.
    intros H. apply andb_true_iff in H as [Hlo Hhi].
    apply Qle_bool_iff in Hlo, Hhi. eauto.
  - intros (q & -> & Hlo & Hhi). cbn.
    apply andb_true_iff. split; now apply Qle_bool_iff.
Qed.

(** The arguments the guard lets through. *)
Lemma guard_accepted args :
  isSearchDocumentationArgs args = true ->
  exists fields l q s,
    args = Some (JObj fields)
    /\ assoc "language" fields = Some (JStr l) /\ In l ["es"; "pt"]
    /\ assoc "query" fields = Some (JStr q)
    /\ assoc "siteId" fields = Some (JStr s) /\ In s VALID_SITES
    /\ (assoc "limit" fields = None
        \/ exists n, assoc "limit" fields = Some (JNum n)
                     /\ (1 <= n)%Q /\ (n <= 100)%Q).
Proof.
  unfold isSearchDocumentationArgs.
  destruct (negb (truthy args) || negb (typeof args =? "object"));
    [discriminate |].
  cbv zeta. intros H.
  apply andb_true_iff in H as [H Hlimit].
  apply andb_true_iff in H as [H Hsite].
  apply andb_true_iff in H as [Hlanguage Hquery].
  apply andb_true_iff in Hlanguage as [_ Hlanguage].
  apply andb_true_iff in Hsite as [_ Hsite].
  apply includes_iff in Hlanguage as (l & Hl & Hlin).
  apply includes_iff in Hsite as (s & Hs & Hsin).
  apply typeof_string in Hquery as (q & Hq).
  destruct args as [[| b | n | t | items | fields] |]; try discriminate Hl.
  exists fields, l, q, s. cbn in Hl, Hq, Hs, Hlimit.
  repeat split; try assumption.
  apply orb_true_iff in Hlimit as [Hnone | Hnumber].
  - left. now destruct (assoc "limit" fields).
  - right. now apply number_between_1_and_100_iff.
Qed.

(** X1.  The guard accepts exactly the objects whose [language] is "es" or
    "pt", whose [query] is a string, whose [siteId] is one of the seven
    sites, and whose [limit] is absent or a number from 1 to 100. *)
Theorem isSearchDocumentationArgs_exact (args : JsValue) :
  isSearchDocumentationArgs args = true <->
  exists fields l q s,
    args = Some (JObj fields)
    /\ assoc "language" fields = Some (JStr l) /\ In l ["es"; "pt"]
    /\ assoc "query" fields = Some (JStr q)
    /\ assoc "siteId" fields = Some (JStr s)
    /\ In s ["MLA"; "MLB"; "MLM"; "MLU"; "MLC"; "MCO"; "MPE"]
    /\ (assoc "limit" fields = None
        \/ exists n, assoc "limit" fields = Some (JNum n)
                     /\ (1 <= n)%Q /\ (n <= 100)%Q).
Proof.
  split.
  - intros Hguard.
    destruct (guard_accepted _ Hguard)
      as (fields & l & q & s & Hargs & Hl & Hlin & Hq & Hs & Hsin & Hlimit).
    exists fields, l, q, s. auto 10.
  - intros (fields & l & q & s & -> & Hl & Hlin & Hq & Hs & Hsin & Hlimit).
    unfold isSearchDocumentationArgs.
    cbn [truthy typeof negb orb prop]. change ("object" =? "object") with true.
    cbn [negb orb]. cbv zeta. rewrite Hl, Hq, Hs.
    assert (truthy (Some (JStr l)) = true) as ->.
    { cbn in Hlin. destruct Hlin as [<- | [<- | []]]; reflexivity. }
    assert (truthy (Some (JStr s)) = true) as ->.
    { cbn in Hsin. repeat destruct Hsin as [<- | Hsin]; try reflexivity.
      destruct Hsin. }
    assert (includes ["es"; "pt"] (Some (JStr l)) = true) as ->.
    { apply includes_iff. eauto. }
    assert (includes VALID_SITES (Some (JStr s)) = true) as ->.
    { apply includes_iff. eauto. }
    cbn [typeof andb]. change ("string" =? "string") with true. cbn [andb].
    destruct Hlimit as [-> | (n & -> & Hlo & Hhi)]; [reflexivity |].
    cbn [is_undefined orb].
    apply number_between_1_and_100_iff. eauto.
Qed.


(** X2.  The guard and the schema that list-tools declares for
    search_documentation accept the same arguments. *)
Theorem guard_matches_declared_schema (args : JsValue) :
  isSearchDocumentationArgs args
  = satisfies_schema (inputSchema_of "search_documentation") args.
Proof.
  destruct args as [[| b | n | t | items | fields] |];
    try reflexivity.
  - destruct b; reflexivity.
  - unfold isSearchDocumentationArgs. cbn [typeof].
    change ("number" =? "object") with false. cbn [negb].
    now rewrite orb_true_r.
  - unfold isSearchDocumentationArgs. cbn [typeof].
    change ("string" =? "object") with false. cbn [negb].
    now rewrite orb_true_r.
  - unfold satisfies_schema, isSearchDocumentationArgs.
    let s := eval vm_compute in (inputSchema_of "search_documentation") in
    change (inputSchema_of "search_documentation") with s.
    cbv beta iota. unfold declared_properties, json_strings.
    cbn [prop assoc String.eqb Ascii.eqb Bool.eqb flat_map forallb app fst snd
         truthy typeof negb orb].
    change ("object" =? "object") with true. cbn [negb orb]. cbv zeta.
    match goal with |- _ = satisfies_keywords ?top _ && _ && _ =>
      change (satisfies_keywords top (JObj fields)) with true end.
    generalize (assoc "language" fields) (assoc "query" fields)
               (assoc "siteId" fields) (assoc "limit" fields).
    intros vl vq vs vlim.
    assert (Hl : truthy vl && includes ["es"; "pt"] vl
                 = negb (is_undefined vl)
                   && match vl with
                      | Some v =>
                          satisfies_keywords
                            (JObj [("type", JStr "string");
                                   ("enum", JArr [JStr "es"; JStr "pt"]);
                                   ("description",
                                    JStr "Language of the documentation (es: Spanish, pt: Portuguese)")])
                            v
                      | None => true
                      end).
    { destruct vl as [[| b | n | [| a l] | items | fs] |]; try reflexivity.
      - now destruct b.
      - cbn. now destruct (negb (Qeq_bool n 0)).
      - unfold satisfies_keywords. cbn. now rewrite !andb_true_r. }
    assert (Hq : (typeof vq =? "string")
                 = negb (is_undefined vq)
                   && match vq with
                      | Some v =>
                          satisfies_keywords
                            (JObj [("type", JStr "string");
                                   ("description", JStr "Search query")])
                            v
                      | None => true
                      end).
    { destruct vq as [[| b | n | q | items | fs] |]; reflexivity. }
    assert (Hs : truthy vs && includes VALID_SITES vs
                 = negb (is_undefined vs)
                   && match vs with
                      | Some v =>
                          satisfies_keywords
                            (JObj [("type", JStr "string");
                                   ("description",
                                    JStr "Site ID for documentation");
                                   ("enum",
                                    JArr [JStr "MLB"; JStr "MLM"; JStr "MLA";
                                          JStr "MLU"; JStr "MLC"; JStr "MCO";
                                          JStr "MPE"])])
                            v
                      | None => true
                      end).
    { destruct vs as [[| b | n | [| a s] | items | fs] |]; try reflexivity.
      - now destruct b.
      - cbn. now destruct (negb (Qeq_bool n 0)).
      - change (truthy (Some (JStr (String a s)))) with true.
        generalize (String a s). intros site.
        unfold satisfies_keywords, VALID_SITES. cbn.
        rewrite !andb_true_r, !orb_false_r.
        destruct (site =? "MLA"), (site =? "MLB"), (site =? "MLM"),
          (site =? "MLU"), (site =? "MLC"), (site =? "MCO"),
          (site =? "MPE"); reflexivity. }
    assert (Hlim : is_undefined vlim || number_between_1_and_100 vlim
                   = match vlim with
                     | Some v =>
                         satisfies_keywords
                           (JObj [("type", JStr "number");
                                  ("description",
                                   JStr "Maximum number of results to return (default: 10)");
                                  ("minimum", JNum 1);
                                  ("maximum", JNum 100)])
                           v
                     | None => true
                     end).
    { destruct vlim as [[| b | n | q | items | fs] |]; reflexivity. }
    rewrite Hl, Hq, Hs, Hlim. btauto.
Qed.


(** ** More on the token and the pipeline *)

(** X3.  With an empty cache and a refused exchange the call stops at the
    token stage: the caller gets an internal error carrying the upstream
    message, no API request is sent, the pending API answers are untouched
    and the cache stays empty. *)
Theorem refused_exchange_stops_call
  (config : Config) (w : World) (message : string)
  (grants : list AuthOutcome) :
  cached_token w = None ->
  authUpstream w = AuthRefused message :: grants ->
  api config w
  = (inl (McpError InternalError ("MercadoPago Auth error: " ++ message)),
     mkWorld (accessToken w) (requestCount w) grants (apiUpstream w)
             (trace w ++ [EvTokenExchange])).
Proof.
  intros Hc Hauth.
  rewrite api_two_passes, requestChain_eq.
  rewrite (getAccessToken_empty _ Hc), Hauth. reflexivity.
Qed.

Lemma refused_exchange_stops_call_witness :
  api sample_search_config
      (mkWorld None 0 [AuthRefused "invalid_client"]
               [Responded 200 (JArr [])] [])
  = (inl (McpError InternalError
                   "MercadoPago Auth error: invalid_client"),
     mkWorld None 0 [] [Responded 200 (JArr [])] [EvTokenExchange]).
Proof.
  apply (@refused_exchange_stops_call sample_search_config
           (mkWorld None 0 [AuthRefused "invalid_client"]
                    [Responded 200 (JArr [])] [])
           "invalid_client" []); reflexivity.
Defined.

(** X4.  After [clearToken] the next [getAccessToken] always goes to the
    identity endpoint: the token it returns is the one just granted, never
    the one that was cached before; and clearing twice leaves the cache as
    clearing once does. *)
Theorem cleared_token_is_never_returned (w : World) :
  accessToken (snd (clearToken (snd (clearToken w)))) = None
  /\ accessToken (snd (clearToken w)) = None
  /\ trace (snd (getAccessToken (snd (clearToken w))))
     = (trace w ++ [EvTokenCleared; EvTokenExchange])%list
  /\ forall t,
       fst (getAccessToken (snd (clearToken w))) = inr t ->
       exists body rest,
         authUpstream w = AuthGranted body :: rest
         /\ t = access_token body
         /\ accessToken (snd (getAccessToken (snd (clearToken w)))) = Some t.
Proof.
  split; [reflexivity | split; [reflexivity |]].
  rewrite getAccessToken_empty by reflexivity.
  cbn [clearToken snd emit set_accessToken authUpstream trace accessToken
       requestCount apiUpstream].
  destruct (authUpstream w) as [| [body | message] rest]; cbn.
  - split; [now rewrite <- ?app_assoc |]. discriminate.
  - split; [now rewrite <- ?app_assoc |].
    intros t Ht. injection Ht as <-. eauto.
  - split; [now rewrite <- ?app_assoc |]. discriminate.
Qed.

Lemma requestChain_retry_config config w e w1 c :
  requestChain config w = (inl e, w1) ->
  retryTarget e = Some c ->
  exists t, c = withAuthorization t config.
Proof.
  rewrite requestChain_eq.
  destruct (getAccessToken w) as [[e' | token] w'] eqn:Hacq.
  - intros H; inversion H; subst.
    rewrite (getAccessToken_error_no_retry _ Hacq). discriminate.
  - rewrite dispatchRequest_eq. intros H; inversion H as [[Hs Hw]].
    rewrite (retryTarget_settle _ _ Hs).
    destruct (is_401 _ && negb _); [| discriminate].
    intros Hc; injection Hc as <-. eauto.
Qed.

(** X5.  Every request the pipeline sends for a call carries a bearer
    token, and has the method, URL, parameters and body of the call: the
    retried request differs from the first one in its token and flag only. *)
Theorem every_request_is_authorized (config : Config) (w : World) :
  exists new,
    trace (snd (api config w)) = (trace w ++ new)%list
    /\ forall sent,
         In (EvApiRequest sent) new ->
         (exists t, Authorization sent = Some ("Bearer " ++ t))
         /\ method sent = method config
         /\ url sent = url config
         /\ params sent = params config
         /\ data sent = data config.
Proof.
  rewrite api_two_passes.
  destruct (requestChain_events config w)
    as (acq & req & Htrace & Hacq & Hreq & _).
  assert (Hfirst : forall sent,
             In (EvApiRequest sent) (acq ++ req) ->
             (exists t, Authorization sent = Some ("Bearer " ++ t))
             /\ method sent = method config /\ url sent = url config
             /\ params sent = params config /\ data sent = data config).
  { intros sent Hin. apply in_app_or in Hin as [Hin | Hin].
    - destruct Hacq as [-> | ->]; cbn in Hin; intuition discriminate.
    - destruct Hreq as [-> | [t ->]]; cbn in Hin; [contradiction |].
      destruct Hin as [Hin | []]. injection Hin as <-. cbn. eauto 6. }
  destruct (requestChain config w) as [[e | response] w1] eqn:Hchain;
    cbn [snd] in *; [| exists (acq ++ req)%list; auto].
  destruct (retryTarget e) as [c |] eqn:Hretry;
    [| exists (acq ++ req)%list; auto].
  destruct (requestChain_retry_config _ _ Hchain Hretry) as [t0 ->].
  destruct (requestChain_events (markRetry (withAuthorization t0 config))
                                (snd (clearToken w1)))
    as (acq2 & req2 & Htrace2 & Hacq2 & Hreq2 & _).
  exists ((acq ++ req) ++ [EvTokenCleared] ++ acq2 ++ req2)%list. split.
  - rewrite Htrace2. cbn [clearToken snd emit trace set_accessToken].
    rewrite Htrace. now rewrite <- !app_assoc.
  - intros sent Hin. apply in_app_or in Hin as [Hin | Hin]; [auto |].
    apply in_app_or in Hin as [Hin | Hin];
      [cbn in Hin; intuition discriminate |].
    apply in_app_or in Hin as [Hin | Hin].
    + destruct Hacq2 as [-> | ->]; cbn in Hin; intuition discriminate.
    + destruct Hreq2 as [-> | [t ->]]; cbn in Hin; [contradiction |].
      destruct Hin as [Hin | []]. injection Hin as <-. cbn. eauto 6.
Qed.


(** ** Routing of tool calls *)

Section Routing.

Variable number_to_string : Q -> string.

Lemma handleDocumentTypes_returns context w :
  exists r, fst (handleDocumentTypes number_to_string context w) = inr r.
Proof.
  unfold handleDocumentTypes, try_catch, bind, api_get, lift, ret.
  destruct (api _ w) as [[e | response] w1]; [cbn; eauto |].
  destruct (data_map _ (response_data response)); cbn; eauto.
Qed.

Lemma handlePaymentsMethods_returns context w :
  exists r, fst (handlePaymentsMethods number_to_string context w) = inr r.
Proof.
  unfold handlePaymentsMethods, try_catch, bind, api_get, lift, ret.
  destruct (api _ w) as [[e | response] w1]; [cbn; eauto |].
  destruct (data_map _ (response_data response)); cbn; eauto.
Qed.

Lemma handleSearchDocumentation_returns args context w :
  exists r,
    fst (handleSearchDocumentation number_to_string args context w) = inr r.
Proof.
  unfold handleSearchDocumentation, try_catch.
  match goal with |- context [bind ?c ?k w] =>
    destruct (bind c k w) as [[e | r] w1] end; cbn; eauto.
Qed.

(** When the body of the dispatcher's [try] returns, the [catch] does not
    apply. *)
Lemma try_catch_returned {A} (body : M A) (h : Exn -> M A) w :
  (exists a, fst (body w) = inr a) -> try_catch body h w = body w.
Proof.
  intros (a & Ha). unfold try_catch.
  destruct (body w) as [[e | a'] w1]; cbn in *; [discriminate | reflexivity].
Qed.

(** X6.  The dispatcher hands each registered tool to its own handler, in
    the world where the call has been counted, and returns what the handler
    returns as it is; search_documentation reaches its handler exactly when
    the guard accepts the arguments.  The branch of the [catch] that turns
    an axios failure into a "MercadoPago API error" envelope never applies
    to these calls. *)
Theorem callTool_routes (request : ToolRequest) (w : World) :
  (name request = "create_customer" ->
   callTool number_to_string request w
   = handleCreateCustomer number_to_string (arguments request)
                          (context_of request w) (registered w))
  /\ (name request = "document_types" ->
      callTool number_to_string request w
      = handleDocumentTypes number_to_string (context_of request w)
                            (registered w))
  /\ (name request = "payments_methods" ->
      callTool number_to_string request w
      = handlePaymentsMethods number_to_string (context_of request w)
                              (registered w))
  /\ (name request = "search_documentation" ->
      isSearchDocumentationArgs (arguments request) = true ->
      callTool number_to_string request w
      = handleSearchDocumentation number_to_string (arguments request)
                                  (context_of request w) (registered w)).
Proof.
  unfold callTool, bind, createRequestContext.
  fold (registered w). fold (context_of request w).
  repeat split; intros Hname; rewrite Hname.
  - rewrite try_catch_returned; [reflexivity |].
    cbn. destruct (handleCreateCustomer_returns number_to_string
                     (arguments request) (context_of request w)
                     (registered w)) as (r & Hr & _). eauto.
  - rewrite try_catch_returned; [reflexivity |].
    cbn. apply handleDocumentTypes_returns.
  - rewrite try_catch_returned; [reflexivity |].
    cbn. apply handlePaymentsMethods_returns.
  - intros Hguard. rewrite try_catch_returned.
    + cbn. now rewrite Hguard.
    + cbn. rewrite Hguard. apply handleSearchDocumentation_returns.
Qed.

End Routing.

Lemma callTool_routes_witness :
  callTool integer_to_string create_customer_without_email
           world_customer_refused
  = handleCreateCustomer integer_to_string (Some (JObj []))
      (mkContext "create_customer" "req_1")
      (registered world_customer_refused)
  /\ callTool integer_to_string list_document_types world_customer_refused
     = handleDocumentTypes integer_to_string
         (mkContext "document_types" "req_1")
         (registered world_customer_refused)
  /\ callTool integer_to_string (mkToolRequest "payments_methods" None)
              world_customer_refused
     = handlePaymentsMethods integer_to_string
         (mkContext "payments_methods" "req_1")
         (registered world_customer_refused)
  /\ callTool integer_to_string
              (mkToolRequest "search_documentation" search_arguments)
              world_three_results
     = handleSearchDocumentation integer_to_string search_arguments
         (mkContext "search_documentation" "req_1")
         (registered world_three_results).
Proof.
  split; [| split; [| split]].
  - apply (proj1 (callTool_routes integer_to_string
                    create_customer_without_email world_customer_refused)).
    reflexivity.
  - apply (proj1 (proj2 (callTool_routes integer_to_string
                           list_document_types world_customer_refused))).
    reflexivity.
  - apply (proj1 (proj2 (proj2 (callTool_routes integer_to_string
                                  (mkToolRequest "payments_methods" None)
                                  world_customer_refused)))).
    reflexivity.
  - apply (proj2 (proj2 (proj2 (callTool_routes integer_to_string
                                  (mkToolRequest "search_documentation"
                                                 search_arguments)
                                  world_three_results)))); reflexivity.
Defined.


(** X7.  The names that list-tools advertises are exactly the names that
    call-tool dispatches: a call to an advertised tool is never answered
    with method-not-found, and a call to any other name always is. *)
Theorem advertised_tools_are_dispatched
  (number_to_string : Q -> string) (tool : string) (args : JsValue)
  (w : World) :
  (In tool advertised_names ->
   forall message,
     fst (callTool number_to_string (mkToolRequest tool args) w)
     <> inl (McpError MethodNotFound message))
  /\ (~ In tool advertised_names ->
      fst (callTool number_to_string (mkToolRequest tool args) w)
      = inl (McpError MethodNotFound ("Unknown tool: " ++ tool))).
Proof.
  split.
  - intros Hin message.
    unfold callTool, bind, createRequestContext. cbn [name arguments].
    set (context := mkContext _ _). fold (registered w).
    cbn in Hin. destruct Hin as [<- | [<- | [<- | [<- | []]]]].
    + rewrite try_catch_returned; cbn.
      all: destruct (handleCreateCustomer_returns number_to_string args
                       context (registered w)) as (r & Hr & _).
      * rewrite Hr. discriminate.
      * eauto.
    + rewrite try_catch_returned; cbn.
      all: destruct (handleDocumentTypes_returns number_to_string
                       context (registered w)) as (r & Hr).
      * rewrite Hr. discriminate.
      * eauto.
    + rewrite try_catch_returned; cbn.
      all: destruct (handlePaymentsMethods_returns number_to_string
                       context (registered w)) as (r & Hr).
      * rewrite Hr. discriminate.
      * eauto.
    + destruct (isSearchDocumentationArgs args) eqn:Hguard.
      * rewrite try_catch_returned; cbn.
        all: destruct (handleSearchDocumentation_returns number_to_string
                         args context (registered w)) as (r & Hr).
        -- rewrite Hr. discriminate.
        -- eauto.
      * unfold try_catch. cbn. discriminate.
  - intros Hunknown.
    assert (Hneq : forall known, In known advertised_names ->
                                 (tool =? known) = false).
    { intros known Hin. apply String.eqb_neq. intros ->. contradiction. }
    unfold callTool, bind, createRequestContext, try_catch.
    cbn [name arguments].
    rewrite !Hneq by (cbn; auto).
    reflexivity.
Qed.

Lemma advertised_tools_are_dispatched_witness :
  fst (callTool integer_to_string list_document_types world_customer_refused)
  <> inl (McpError MethodNotFound "Unknown tool: document_types")
  /\ fst (callTool integer_to_string (mkToolRequest "list_tools" None)
            world_customer_refused)
     = inl (McpError MethodNotFound "Unknown tool: list_tools").
Proof.
  split.
  - apply (proj1 (advertised_tools_are_dispatched integer_to_string
                    "document_types" None world_customer_refused)).
    cbn. auto.
  - apply (proj2 (advertised_tools_are_dispatched integer_to_string
                    "list_tools" None world_customer_refused)).
    cbn. intros H. repeat destruct H as [H | H]; try discriminate H. exact H.
Defined.

(** ** The request counter *)

Lemma requestChain_requestCount config w :
  requestCount (snd (requestChain config w)) = requestCount w.
Proof.
  rewrite requestChain_eq.
  destruct (getAccessToken w) as [[e | token] w1] eqn:Hacq;
    destruct (getAccessToken_frame _ Hacq) as [_ Hcount]; [exact Hcount |].
  rewrite dispatchRequest_eq. exact Hcount.
Qed.

Lemma api_requestCount config w :
  requestCount (snd (api config w)) = requestCount w.
Proof.
  rewrite api_two_passes.
  pose proof (requestChain_requestCount config w) as Hfirst.
  destruct (requestChain config w) as [[e | response] w1]; [| exact Hfirst].
  destruct (retryTarget e) as [c |]; [| exact Hfirst].
  rewrite requestChain_requestCount. exact Hfirst.
Qed.

(** X8.  Every tool call is counted exactly once, whatever its outcome:
    rejected calls, failed calls and retried calls included.  After a
    sequence of calls the counter has grown by the number of calls. *)
Theorem every_call_is_counted
  (number_to_string : Q -> string) (requests : list ToolRequest)
  (w : World) :
  requestCount (after_calls number_to_string requests w)
  = requestCount w + List.length requests.
Proof.
  revert w. induction requests as [| request rest IH]; intros w.
  - cbn. lia.
  - cbn [after_calls fold_left List.length].
    fold (after_calls number_to_string rest
            (snd (callTool number_to_string request w))).
    rewrite IH.
    destruct (callTool_world number_to_string request w)
      as [-> | (config & _ & ->)].
    + cbn. lia.
    + rewrite api_requestCount. cbn. lia.
Qed.


(** ** The listing handlers *)

Lemma map_throwing_all {A B} (f : A -> Exn + B) (g : A -> B) items :
  (forall x, In x items -> f x = inr (g x)) ->
  map_throwing f items = inr (map g items).
Proof.
  induction items as [| x rest IH]; intros Hall; [reflexivity |].
  cbn. rewrite (Hall x) by (left; reflexivity).
  rewrite IH by (intros y Hy; apply Hall; right; exact Hy).
  reflexivity.
Qed.

Lemma map_throwing_some {A B} (f : A -> Exn + B) items x e :
  In x items -> f x = inl e ->
  exists e', map_throwing f items = inl e'.
Proof.
  induction items as [| y rest IH]; intros Hin Hx; [contradiction |].
  cbn. destruct (f y) as [e0 | b] eqn:Hy; [eauto |].
  destruct Hin as [-> | Hin]; [congruence |].
  destruct (IH Hin Hx) as (e' & ->). eauto.
Qed.

Lemma data_map_fails {B} (f : Json -> Exn + B) body :
  (forall items, body <> JArr items)
  \/ (exists items item e, body = JArr items /\ In item items
                           /\ f item = inl e) ->
  exists e, data_map f body = inl e.
Proof.
  intros [Hnot | (items & item & e & -> & Hin & Hitem)].
  - destruct body as [| b | q | s | items | fields]; cbn; eauto.
    exfalso. exact (Hnot items eq_refl).
  - cbn. exact (map_throwing_some f items item Hin Hitem).
Qed.

Lemma get_of_value record key :
  record <> JNull -> get (Some record) key = inr (prop (Some record) key).
Proof. intros H. destruct record; try reflexivity. congruence. Qed.

Section Listings.

Variable number_to_string : Q -> string.

Lemma document_type_section_text record :
  record <> JNull ->
  fields_convertible ["name"; "payment_type_id"; "type"] record = true ->
  document_type_section number_to_string record
  = inr (document_type_text number_to_string record).
Proof.
  intros Hrecord Hfields. unfold fields_convertible in Hfields.
  cbn [forallb] in Hfields.
  apply andb_true_iff in Hfields as [Hname Hfields].
  apply andb_true_iff in Hfields as [Hid Hfields].
  apply andb_true_iff in Hfields as [Htype _].
  unfold document_type_section, and_then.
  rewrite (get_of_value _ Hrecord).
  now rewrite !template_text by assumption.
Qed.

Lemma document_type_section_throws record :
  record = JNull
  \/ fields_convertible ["name"; "payment_type_id"; "type"] record = false ->
  exists e, document_type_section number_to_string record = inl e.
Proof.
  intros [-> | Hfields]; [eexists; reflexivity |].
  destruct record; try discriminate Hfields.
  unfold fields_convertible in Hfields. cbn [forallb] in Hfields.
  unfold document_type_section, and_then. cbn [get].
  repeat match goal with
    | |- context [template number_to_string ?v] =>
        rewrite (template_convertible number_to_string v);
        destruct (convertible_value v); [| eexists; reflexivity]
    end.
  discriminate Hfields.
Qed.

Lemma payment_method_section_text record :
  record <> JNull ->
  fields_convertible ["name"; "payment_type_id"; "thumbnail"] record = true ->
  payment_method_section number_to_string record
  = inr (payment_method_text number_to_string record).
Proof.
  intros Hrecord Hfields. unfold fields_convertible in Hfields.
  cbn [forallb] in Hfields.
  apply andb_true_iff in Hfields as [Hname Hfields].
  apply andb_true_iff in Hfields as [Hid Hfields].
  apply andb_true_iff in Hfields as [Hthumbnail _].
  unfold payment_method_section, and_then.
  rewrite (get_of_value _ Hrecord).
  now rewrite !template_text by assumption.
Qed.

Lemma payment_method_section_throws record :
  record = JNull
  \/ fields_convertible ["name"; "payment_type_id"; "thumbnail"] record
     = false ->
  exists e, payment_method_section number_to_string record = inl e.
Proof.
  intros [-> | Hfields]; [eexists; reflexivity |].
  destruct record; try discriminate Hfields.
  unfold fields_convertible in Hfields. cbn [forallb] in Hfields.
  unfold payment_method_section, and_then. cbn [get].
  repeat match goal with
    | |- context [template number_to_string ?v] =>
        rewrite (template_convertible number_to_string v);
        destruct (convertible_value v); [| eexists; reflexivity]
    end.
  discriminate Hfields.
Qed.

(** X9.  document_types on a successful call: an array without [null]
    entries, in which the name, payment_type_id and type of every entry can
    be converted to a string, is rendered as one section per entry, in
    order, joined by the separator, so an empty array gives the empty text
    and not the fallback; a body that is not an array, an array holding a
    [null], and an array holding an entry with a field that cannot be
    converted all give the fallback text. *)
Theorem document_types_listing
  (context : RequestContext) (w w1 : World) (response : Response) :
  api_get "https://api.mercadopago.com/v1/identification_types" [] w
  = (inr response, w1) ->
  (forall items,
     response_data response = JArr items -> ~ In JNull items ->
     (forall item,
        In item items ->
        fields_convertible ["name"; "payment_type_id"; "type"] item = true) ->
     handleDocumentTypes number_to_string context w
     = (inr (text_response
               (join SEPARATOR
                     (map (document_type_text number_to_string) items))),
        w1))
  /\ (response_data response = JArr [] ->
      handleDocumentTypes number_to_string context w
      = (inr (text_response EmptyString), w1))
  /\ (unusable_listing (response_data response) ->
      handleDocumentTypes number_to_string context w
      = (inr (text_response "No document types found. Try again later."),
         w1))
  /\ (forall items item,
        response_data response = JArr items -> In item items ->
        fields_convertible ["name"; "payment_type_id"; "type"] item = false ->
        handleDocumentTypes number_to_string context w
        = (inr (text_response "No document types found. Try again later."),
           w1)).
Proof.
  intros Hcall.
  assert (Hitems : forall items,
             response_data response = JArr items -> ~ In JNull items ->
             (forall item,
                In item items ->
                fields_convertible ["name"; "payment_type_id"; "type"] item
                = true) ->
             handleDocumentTypes number_to_string context w
             = (inr (text_response
                       (join SEPARATOR
                          (map (document_type_text number_to_string) items))),
                w1)).
  { intros items Hbody Hnonnull Hfields.
    unfold handleDocumentTypes, try_catch, bind. rewrite Hcall, Hbody.
    cbn [data_map lift].
    rewrite (map_throwing_all _ (document_type_text number_to_string)).
    - reflexivity.
    - intros x Hx. apply document_type_section_text; [| now apply Hfields].
      intros ->. contradiction. }
  assert (Hfails : (exists e,
                      data_map (document_type_section number_to_string)
                               (response_data response) = inl e) ->
                   handleDocumentTypes number_to_string context w
                   = (inr (text_response
                             "No document types found. Try again later."),
                      w1)).
  { intros (e & He).
    unfold handleDocumentTypes, try_catch, bind. rewrite Hcall.
    unfold lift. rewrite He. reflexivity. }
  split; [exact Hitems | split; [| split]].
  - intros Hbody. apply (Hitems [] Hbody); [intros [] | intros item []].
  - intros [Hnot | (items & Hbody & Hin)]; apply Hfails, data_map_fails.
    + now left.
    + right.
      destruct (@document_type_section_throws JNull (or_introl eq_refl))
        as (e & He).
      exists items, JNull, e. auto.
  - intros items item Hbody Hin Hbad. apply Hfails, data_map_fails. right.
    destruct (@document_type_section_throws item (or_intror Hbad))
      as (e & He).
    exists items, item, e. auto.
Qed.

(** X10.  payments_methods on a successful call: one section per entry of
    an array without [null] entries in which the name, payment_type_id and
    thumbnail of every entry can be converted to a string, the empty text
    for an empty array, and the fallback text for a body that is not an
    array, an array holding a [null], or an array holding an entry with a
    field that cannot be converted. *)
Theorem payments_methods_listing
  (context : RequestContext) (w w1 : World) (response : Response) :
  api_get "https://api.mercadopago.com/v1/payment_methods" [] w
  = (inr response, w1) ->
  (forall items,
     response_data response = JArr items -> ~ In JNull items ->
     (forall item,
        In item items ->
        fields_convertible ["name"; "payment_type_id"; "thumbnail"] item
        = true) ->
     handlePaymentsMethods number_to_string context w
     = (inr (text_response
               (join SEPARATOR
                     (map (payment_method_text number_to_string) items))),
        w1))
  /\ (response_data response = JArr [] ->
      handlePaymentsMethods number_to_string context w
      = (inr (text_response EmptyString), w1))
  /\ (unusable_listing (response_data response) ->
      handlePaymentsMethods number_to_string context w
      = (inr (text_response "No payments found. Try again later."), w1))
  /\ (forall items item,
        response_data response = JArr items -> In item items ->
        fields_convertible ["name"; "payment_type_id"; "thumbnail"] item
        = false ->
        handlePaymentsMethods number_to_string context w
        = (inr (text_response "No payments found. Try again later."), w1)).
Proof.
  intros Hcall.
  assert (Hitems : forall items,
             response_data response = JArr items -> ~ In JNull items ->
             (forall item,
                In item items ->
                fields_convertible ["name"; "payment_type_id"; "thumbnail"]
                                   item = true) ->
             handlePaymentsMethods number_to_string context w
             = (inr (text_response
                       (join SEPARATOR
                          (map (payment_method_text number_to_string) items))),
                w1)).
  { intros items Hbody Hnonnull Hfields.
    unfold handlePaymentsMethods, try_catch, bind. rewrite Hcall, Hbody.
    cbn [data_map lift].
    rewrite (map_throwing_all _ (payment_method_text number_to_string)).
    - reflexivity.
    - intros x Hx. apply payment_method_section_text; [| now apply Hfields].
      intros ->. contradiction. }
  assert (Hfails : (exists e,
                      data_map (payment_method_section number_to_string)
                               (response_data response) = inl e) ->
                   handlePaymentsMethods number_to_string context w
                   = (inr (text_response
                             "No payments found. Try again later."),
                      w1)).
  { intros (e & He).
    unfold handlePaymentsMethods, try_catch, bind. rewrite Hcall.
    unfold lift. rewrite He. reflexivity. }
  split; [exact Hitems | split; [| split]].
  - intros Hbody. apply (Hitems [] Hbody); [intros [] | intros item []].
  - intros [Hnot | (items & Hbody & Hin)]; apply Hfails, data_map_fails.
    + now left.
    + right.
      destruct (@payment_method_section_throws JNull (or_introl eq_refl))
        as (e & He).
      exists items, JNull, e. auto.
  - intros items item Hbody Hin Hbad. apply Hfails, data_map_fails. right.
    destruct (@payment_method_section_throws item (or_intror Hbad))
      as (e & He).
    exists items, item, e. auto.
Qed.

End Listings.


Lemma document_types_listing_witness :
  fst (handleDocumentTypes integer_to_string
         (sample_context "document_types") world_two_records)
  = inr (text_response
           ("## DNI " ++ LF ++ " id: id " ++ LF ++ "type: number"
              ++ SEPARATOR
              ++ "## CUIT " ++ LF ++ " id: undefined " ++ LF
              ++ "type: undefined"))
  /\ fst (handleDocumentTypes integer_to_string
            (sample_context "document_types") world_empty_listing)
     = inr (text_response EmptyString)
  /\ fst (handleDocumentTypes integer_to_string
            (sample_context "document_types") world_customer_null_body)
     = inr (text_response "No document types found. Try again later.")
  /\ fst (handleDocumentTypes integer_to_string
            (sample_context "document_types") world_odd_record)
     = inr (text_response "No document types found. Try again later.").
Proof.
  split; [| split; [| split]].
  - unshelve erewrite (proj1 (@document_types_listing integer_to_string
                       (sample_context "document_types")
                       world_two_records _ _ _)).
    all: try match goal with
             | |- api_get _ _ _ = _ => vm_compute; reflexivity
             end.
    all: try match goal with
             | |- response_data _ = _ => reflexivity
             end.
    all: try reflexivity.
    + cbn. intros [H | [H | []]]; discriminate H.
    + cbn. intros item [<- | [<- | []]]; reflexivity.
  - unshelve erewrite (proj1 (proj2 (@document_types_listing integer_to_string
                              (sample_context "document_types")
                              world_empty_listing _ _ _))).
    all: try match goal with
             | |- api_get _ _ _ = _ => vm_compute; reflexivity
             end.
    all: try match goal with
             | |- response_data _ = _ => reflexivity
             end.
    all: reflexivity.
  - unshelve erewrite (proj1 (proj2 (proj2 (@document_types_listing integer_to_string
                              (sample_context "document_types")
                              world_customer_null_body _ _ _)))).
    all: try match goal with
             | |- api_get _ _ _ = _ => vm_compute; reflexivity
             end.
    all: try reflexivity.
    left. intros items. discriminate.
  - unshelve erewrite (proj2 (proj2 (proj2 (@document_types_listing integer_to_string
                              (sample_context "document_types")
                              world_odd_record _ _ _)))
                         [JObj [("name", JObj [("toString", JNum 1)])]]
                         (JObj [("name", JObj [("toString", JNum 1)])])).
    all: try match goal with
             | |- api_get _ _ _ = _ => vm_compute; reflexivity
             end.
    all: try reflexivity.
    left. reflexivity.
Defined.

Lemma payments_methods_listing_witness :
  fst (handlePaymentsMethods integer_to_string
         (sample_context "payments_methods") world_two_records)
  = inr (text_response
           ("## DNI " ++ LF ++ " id: id " ++ LF ++ "thumbnail: dni.png"
              ++ SEPARATOR
              ++ "## CUIT " ++ LF ++ " id: undefined " ++ LF
              ++ "thumbnail: undefined"))
  /\ fst (handlePaymentsMethods integer_to_string
            (sample_context "payments_methods") world_empty_listing)
     = inr (text_response EmptyString)
  /\ fst (handlePaymentsMethods integer_to_string
            (sample_context "payments_methods") world_customer_null_body)
     = inr (text_response "No payments found. Try again later.")
  /\ fst (handlePaymentsMethods integer_to_string
            (sample_context "payments_methods") world_odd_record)
     = inr (text_response "No payments found. Try again later.").
Proof.
  split; [| split; [| split]].
  - unshelve erewrite (proj1 (@payments_methods_listing integer_to_string
                       (sample_context "payments_methods")
                       world_two_records _ _ _)).
    all: try match goal with
             | |- api_get _ _ _ = _ => vm_compute; reflexivity
             end.
    all: try match goal with
             | |- response_data _ = _ => reflexivity
             end.
    all: try reflexivity.
    + cbn. intros [H | [H | []]]; discriminate H.
    + cbn. intros item [<- | [<- | []]]; reflexivity.
  - unshelve erewrite (proj1 (proj2 (@payments_methods_listing integer_to_string
                              (sample_context "payments_methods")
                              world_empty_listing _ _ _))).
    all: try match goal with
             | |- api_get _ _ _ = _ => vm_compute; reflexivity
             end.
    all: try match goal with
             | |- response_data _ = _ => reflexivity
             end.
    all: reflexivity.
  - unshelve erewrite (proj1 (proj2 (proj2 (@payments_methods_listing integer_to_string
                              (sample_context "payments_methods")
                              world_customer_null_body _ _ _)))).
    all: try match goal with
             | |- api_get _ _ _ = _ => vm_compute; reflexivity
             end.
    all: try reflexivity.
    left. intros items. discriminate.
  - unshelve erewrite (proj2 (proj2 (proj2 (@payments_methods_listing integer_to_string
                              (sample_context "payments_methods")
                              world_odd_record _ _ _)))
                         [JObj [("name", JObj [("toString", JNum 1)])]]
                         (JObj [("name", JObj [("toString", JNum 1)])])).
    all: try match goal with
             | |- api_get _ _ _ = _ => vm_compute; reflexivity
             end.
    all: try reflexivity.
    left. reflexivity.
Defined.

(** ** search_documentation *)

(** With a token in the cache the first thing a call does is to send its
    request under that token. *)
Lemma api_first_request config w t :
  cached_token w = Some t ->
  exists rest,
    trace (snd (api config w))
    = (trace w ++ EvApiRequest (withAuthorization t config) :: rest)%list.
Proof.
  intros Hc. rewrite api_two_passes, requestChain_eq.
  rewrite (getAccessToken_cached _ Hc), dispatchRequest_eq.
  destruct (settle _ _) as [e | response]; [| exists []; reflexivity].
  destruct (retryTarget e) as [c |]; [| exists []; reflexivity].
  destruct (requestChain_events (markRetry c)
              (snd (clearToken
                      (mkWorld (accessToken w) (requestCount w)
                               (authUpstream w) (tl (apiUpstream w))
                               (trace w ++
                                [EvApiRequest (withAuthorization t config)])))))
    as (acq & req & Htrace & _).
  cbn [snd]. rewrite Htrace.
  cbn [clearToken snd emit trace set_accessToken].
  exists (EvTokenCleared :: acq ++ req)%list.
  rewrite <- !app_assoc. reflexivity.
Qed.

Section Search.

Variable number_to_string : Q -> string.

(** X11.  For accepted arguments the search request carries the query as
    [term], the language as [lang], the site as [siteId], and as
    [maxResults] the given limit, or 10 when there is none: a limit that
    passed the guard is never replaced by the default. *)
Theorem search_sends_accepted_arguments
  (args : JsValue) (context : RequestContext) (w : World) (t : string) :
  isSearchDocumentationArgs args = true ->
  cached_token w = Some t ->
  exists q l s m rest,
    prop args "query" = Some (JStr q)
    /\ prop args "language" = Some (JStr l)
    /\ prop args "siteId" = Some (JStr s)
    /\ (prop args "limit" = None -> m = 10%Q)
    /\ (forall n, prop args "limit" = Some (JNum n) -> m = n)
    /\ trace (snd (handleSearchDocumentation number_to_string args context w))
       = (trace w
            ++ EvApiRequest
                 (mkConfig GET "/docs/v1/search"
                           [("term", JStr q); ("lang", JStr l);
                            ("siteId", JStr s); ("maxResults", JNum m)]
                           None (Some ("Bearer " ++ t)%string) false)
            :: rest)%list.
Proof.
  intros Hguard Hc.
  destruct (guard_accepted _ Hguard)
    as (fields & l & q & s & -> & Hl & _ & Hq & Hs & _ & Hlimit).
  unfold handleSearchDocumentation. rewrite try_api_world.
  2: { intros r. destruct (response_data r) as [| | | | [| item items] |];
         auto with preserving. }
  2: { auto with preserving. }
  cbn [prop]. rewrite Hl, Hq, Hs. cbn [field app].
  destruct Hlimit as [Hnone | (n & Hn & Hlo & _)].
  - rewrite Hnone. cbn [js_or truthy field app].
    destruct (api_first_request
                (mkConfig GET "/docs/v1/search"
                          [("term", JStr q); ("lang", JStr l);
                           ("siteId", JStr s); ("maxResults", JNum 10)]
                          None None false) w Hc) as (rest & Hrest).
    exists q, l, s, 10%Q, rest.
    repeat split; try reflexivity; try exact Hrest; intros; congruence.
  - rewrite Hn.
    assert (Htruthy : truthy (Some (JNum n)) = true).
    { cbn. apply negb_true_iff, not_true_is_false. intros Hzero.
      apply Qeq_bool_iff in Hzero. rewrite Hzero in Hlo.
      apply (Qle_not_lt _ _ Hlo). reflexivity. }
    unfold js_or. rewrite Htruthy. cbn [field app].
    destruct (api_first_request
                (mkConfig GET "/docs/v1/search"
                          [("term", JStr q); ("lang", JStr l);
                           ("siteId", JStr s); ("maxResults", JNum n)]
                          None None false) w Hc) as (rest & Hrest).
    exists q, l, s, n, rest.
    repeat split; try reflexivity; try exact Hrest; intros; congruence.
Qed.

End Search.


Lemma map_throwing_related {A B} (f : A -> Exn + B) (R : A -> B -> Prop)
      items :
  (forall x, In x items -> exists y, f x = inr y /\ R x y) ->
  exists ys, map_throwing f items = inr ys /\ Forall2 R items ys.
Proof.
  induction items as [| x rest IH]; intros Hall.
  - exists []. split; [reflexivity | constructor].
  - destruct (Hall x (or_introl eq_refl)) as (y & Hy & Hxy).
    destruct IH as (ys & Hys & Hrel);
      [intros z Hz; apply Hall; right; exact Hz |].
    exists (y :: ys). cbn. rewrite Hy, Hys. split; [reflexivity |].
    now constructor.
Qed.

Lemma valid_site_has_domain s :
  In s VALID_SITES ->
  exists domain,
    site_domain (Some (JStr s)) = Some (JStr domain)
    /\ truthy_string domain = true.
Proof.
  cbn. intros H.
  repeat destruct H as [<- | H]; try (eexists; split; reflexivity).
  destruct H.
Qed.

Lemma falsy_convertible (v : JsValue) :
  truthy v = false -> convertible_value v = true.
Proof. destruct v as [[| b | q | s | items | fields] |]; cbn; congruence. Qed.

Lemma js_or_convertible (v d : JsValue) :
  convertible_value d = true ->
  convertible_value (js_or v d) = convertible_value v.
Proof.
  intros Hd. unfold js_or. destruct (truthy v) eqn:Hv; [reflexivity |].
  now rewrite (falsy_convertible _ Hv).
Qed.

Lemma js_or_twice (u d : JsValue) : js_or (js_or u d) d = js_or u d.
Proof.
  unfold js_or. destruct (truthy u) eqn:Hu; [now rewrite Hu |].
  now destruct (truthy d).
Qed.

Section SearchAnswers.

Variable number_to_string : Q -> string.

Lemma buildDocumentationUrl_text domain l (path : JsValue) :
  truthy_string domain = true -> truthy_string l = true ->
  convertible_value path = true ->
  buildDocumentationUrl number_to_string (Some (JStr domain)) (Some (JStr l))
                        path
  = inr ("https://" ++ domain ++ "/developers/" ++ l
           ++ text_of_value number_to_string
                            (js_or path (Some (JStr EmptyString)))).
Proof.
  intros Hdomain Hl Hpath. unfold buildDocumentationUrl, and_then.
  cbn [truthy]. rewrite Hdomain, Hl. cbn [negb orb template to_string].
  rewrite template_text; [reflexivity |].
  now rewrite js_or_convertible.
Qed.

Lemma buildDocumentationUrl_throws (siteDomain language path : JsValue) :
  convertible_value path = false ->
  exists e,
    buildDocumentationUrl number_to_string siteDomain language path = inl e.
Proof.
  intros Hpath. unfold buildDocumentationUrl, and_then.
  destruct (negb (truthy siteDomain) || negb (truthy language));
    [eexists; reflexivity |].
  destruct (template number_to_string siteDomain); [eexists; reflexivity |].
  destruct (template number_to_string language); [eexists; reflexivity |].
  rewrite template_throws; [eexists; reflexivity |].
  rewrite js_or_convertible; [exact Hpath | reflexivity].
Qed.

(** For accepted arguments a result that is not [null] and can be shown
    never makes the rendering fail. *)
Lemma render_result_accepted fields l s domain result :
  assoc "language" fields = Some (JStr l) -> In l ["es"; "pt"] ->
  assoc "siteId" fields = Some (JStr s) ->
  site_domain (Some (JStr s)) = Some (JStr domain) ->
  truthy_string domain = true ->
  result <> JNull ->
  renderable result = true ->
  exists block,
    render_result number_to_string (Some (JObj fields)) result = inr block
    /\ rendered_as number_to_string domain l result block.
Proof.
  intros Hl Hlin Hs Hdomain Hnonempty Hresult Hshown.
  unfold render_result, rendered_as, and_then.
  rewrite (get_of_value _ Hresult). cbv zeta.
  unfold renderable in Hshown.
  destruct (negb (truthy (prop (Some result) "title"))
            && negb (truthy (prop (Some result) "content")));
    [eexists; split; reflexivity |].
  cbn [orb] in Hshown. unfold fields_convertible in Hshown.
  cbn [forallb] in Hshown.
  apply andb_true_iff in Hshown as [Htitle Hshown].
  apply andb_true_iff in Hshown as [Hcontent Hshown].
  apply andb_true_iff in Hshown as [Hurl Hshown].
  apply andb_true_iff in Hshown as [Hscore _].
  cbn [prop]. rewrite Hl, Hs, Hdomain.
  assert (Hlanguage : truthy_string l = true).
  { cbn in Hlin. destruct Hlin as [<- | [<- | []]]; reflexivity. }
  rewrite buildDocumentationUrl_text; try assumption.
  2: { now rewrite js_or_convertible. }
  rewrite js_or_twice.
  rewrite !template_text by (now rewrite js_or_convertible).
  eexists. split; reflexivity.
Qed.

(** A result that cannot be shown makes the rendering fail, whatever the
    arguments. *)
Lemma render_result_throws args result :
  result = JNull \/ renderable result = false ->
  exists e, render_result number_to_string args result = inl e.
Proof.
  intros [-> | Hshown]; [eexists; reflexivity |].
  destruct result as [| b | n | s | items | l]; try discriminate Hshown.
  unfold renderable in Hshown. unfold render_result, and_then.
  cbn [get]. cbv zeta.
  destruct (negb (truthy (prop (Some (JObj l)) "title"))
            && negb (truthy (prop (Some (JObj l)) "content")));
    [discriminate Hshown |].
  cbn [orb] in Hshown. unfold fields_convertible in Hshown.
  cbn [forallb] in Hshown.
  destruct (convertible_value (prop (Some (JObj l)) "url")) eqn:Hurl.
  - destruct (buildDocumentationUrl _ _ _ _); [eexists; reflexivity |].
    repeat match goal with
      | |- context [template number_to_string (js_or ?v ?d)] =>
          rewrite (template_convertible number_to_string (js_or v d));
          rewrite (@js_or_convertible v d eq_refl);
          destruct (convertible_value v); [| eexists; reflexivity]
      end.
    discriminate Hshown.
  - destruct (@buildDocumentationUrl_throws
                (site_domain (prop args "siteId")) (prop args "language")
                (js_or (prop (Some (JObj l)) "url") (Some (JStr EmptyString))))
      as (e & He).
    + rewrite js_or_convertible; [exact Hurl | reflexivity].
    + rewrite He. eexists. reflexivity.
Qed.

(** X12.  search_documentation on a successful call with accepted
    arguments and results none of which is [null], each of them either
    without title and content or with a title, content, url and score that
    can be converted to a string: the digest is the heading with the query,
    the number of results, and one entry per result in order, joined by the
    separator; an entry is empty exactly for a result with neither title nor
    content and is otherwise the block with the fallbacks for a missing
    title, content, path or score.  Nothing in such results makes the
    handler fail. *)
Theorem search_digest_of_results
  (args : JsValue) (context : RequestContext) (w w1 : World)
  (response : Response) (first : Json) (others : list Json) :
  isSearchDocumentationArgs args = true ->
  api_get "/docs/v1/search"
          (field "term" (prop args "query")
             ++ field "lang" (prop args "language")
             ++ field "siteId" (prop args "siteId")
             ++ field "maxResults"
                  (js_or (prop args "limit") (Some (JNum 10))))%list w
  = (inr response, w1) ->
  response_data response = JArr (first :: others) ->
  ~ In JNull (first :: others) ->
  (forall result, In result (first :: others) -> renderable result = true) ->
  exists q l domain blocks,
    prop args "query" = Some (JStr q)
    /\ prop args "language" = Some (JStr l)
    /\ site_domain (prop args "siteId") = Some (JStr domain)
    /\ Forall2 (rendered_as number_to_string domain l)
               (first :: others) blocks
    /\ handleSearchDocumentation number_to_string args context w
       = (inr (text_response
                 (search_heading q (S (List.length others))
                    ++ join_nullable SEPARATOR blocks)),
          w1).
Proof.
  intros Hguard Hcall Hbody Hnonnull Hshown.
  destruct (guard_accepted _ Hguard)
    as (fields & l & q & s & -> & Hl & Hlin & Hq & Hs & Hsin & _).
  destruct (valid_site_has_domain Hsin) as (domain & Hdomain & Hnonempty).
  destruct (@map_throwing_related _ _
              (render_result number_to_string (Some (JObj fields)))
              (rendered_as number_to_string domain l) (first :: others))
    as (blocks & Hblocks & Hrel).
  { intros result Hin.
    apply (@render_result_accepted fields l s domain); try assumption.
    - intros ->. contradiction.
    - now apply Hshown. }
  exists q, l, domain, blocks. cbn [prop]. rewrite Hs.
  repeat split; try assumption.
  unfold handleSearchDocumentation, try_catch, bind.
  rewrite Hcall, Hbody. unfold lift. rewrite Hblocks.
  cbn [prop]. rewrite Hq. reflexivity.
Qed.

(** X13.  search_documentation on a successful call whose body cannot be
    used: for an empty array the answer is the "No documentation found"
    text with the query, without [isError], when the query can be converted
    to a string, and the error envelope of the failed conversion when it
    cannot; for a body that is not an array, an array holding a [null], or
    an array holding a result that cannot be shown, it is an envelope with
    [isError] true.  Accepted arguments have a string as query, so for them
    an empty array always gives the "No documentation found" text with that
    string. *)
Theorem search_unusable_answer
  (args : JsValue) (context : RequestContext) (w w1 : World)
  (response : Response) :
  api_get "/docs/v1/search"
          (field "term" (prop args "query")
             ++ field "lang" (prop args "language")
             ++ field "siteId" (prop args "siteId")
             ++ field "maxResults"
                  (js_or (prop args "limit") (Some (JNum 10))))%list w
  = (inr response, w1) ->
  (response_data response = JArr [] ->
   convertible_value (prop args "query") = true ->
   handleSearchDocumentation number_to_string args context w
   = (inr (text_response
             ("No documentation found for query " ++ DQUOTE
                ++ text_of_value number_to_string (prop args "query")
                ++ DQUOTE ++ ". Try a different search term.")),
      w1))
  /\ (response_data response = JArr [] ->
      convertible_value (prop args "query") = false ->
      handleSearchDocumentation number_to_string args context w
      = (inr (mkToolResponse
                [mkText "text"
                        ("Error searching documentation: "
                           ++ "Cannot convert object to primitive value")]
                (Some true)),
         w1))
  /\ (unusable_listing (response_data response) ->
      exists envelope,
        handleSearchDocumentation number_to_string args context w
        = (inr envelope, w1)
        /\ isError envelope = Some true)
  /\ (forall items result,
        response_data response = JArr items -> In result items ->
        renderable result = false ->
        exists envelope,
          handleSearchDocumentation number_to_string args context w
          = (inr envelope, w1)
          /\ isError envelope = Some true)
  /\ (isSearchDocumentationArgs args = true ->
      response_data response = JArr [] ->
      exists q,
        prop args "query" = Some (JStr q)
        /\ handleSearchDocumentation number_to_string args context w
           = (inr (text_response
                     ("No documentation found for query " ++ DQUOTE ++ q
                        ++ DQUOTE ++ ". Try a different search term.")),
              w1)).
Proof.
  intros Hcall.
  assert (Hfails : forall items result,
             response_data response = JArr items -> In result items ->
             result = JNull \/ renderable result = false ->
             exists envelope,
               handleSearchDocumentation number_to_string args context w
               = (inr envelope, w1)
               /\ isError envelope = Some true).
  { intros items result Hbody Hin Hbad.
    unfold handleSearchDocumentation, try_catch, bind.
    rewrite Hcall, Hbody. destruct items as [| item items]; [contradiction |].
    destruct (render_result_throws args Hbad) as (e & He).
    destruct (map_throwing_some
                (render_result number_to_string args) (item :: items)
                result Hin He) as (e' & He').
    unfold lift. rewrite He'. eexists. split; reflexivity. }
  split; [| split; [| split; [| split]]].
  - intros Hbody Hquery. unfold handleSearchDocumentation, try_catch, bind.
    rewrite Hcall, Hbody. unfold lift.
    rewrite (template_text _ _ Hquery). reflexivity.
  - intros Hbody Hquery. unfold handleSearchDocumentation, try_catch, bind.
    rewrite Hcall, Hbody. unfold lift.
    rewrite (template_throws _ _ Hquery). reflexivity.
  - intros [Hnot | (items & Hbody & Hin)].
    + unfold handleSearchDocumentation, try_catch, bind; rewrite Hcall.
      destruct (response_data response) as [| b | n | s | items | fields];
        try (eexists; split; reflexivity).
      exfalso. exact (Hnot items eq_refl).
    + apply (Hfails items JNull Hbody Hin). now left.
  - intros items result Hbody Hin Hbad.
    apply (Hfails items result Hbody Hin). now right.
  - intros Hguard Hbody.
    destruct (guard_accepted _ Hguard)
      as (fields & l & q & s & Hargs & _ & _ & Hq & _).
    exists q. subst args. split; [exact Hq |].
    unfold handleSearchDocumentation, try_catch, bind in *.
    rewrite Hcall, Hbody. cbn [prop]. rewrite Hq. reflexivity.
Qed.

End SearchAnswers.


Lemma search_sends_accepted_arguments_witness :
  exists rest,
    trace (snd (handleSearchDocumentation integer_to_string
                  (search_arguments_with_limit 5)
                  (sample_context "search_documentation")
                  world_three_results))
    = EvApiRequest
        (mkConfig GET "/docs/v1/search"
                  [("term", JStr "checkout"); ("lang", JStr "es");
                   ("siteId", JStr "MLA"); ("maxResults", JNum 5)]
                  None (Some "Bearer t") false)
      :: rest.
Proof.
  destruct (@search_sends_accepted_arguments integer_to_string
              (search_arguments_with_limit 5)
              (sample_context "search_documentation")
              world_three_results "t" eq_refl eq_refl)
    as (q & l & s & m & rest & Hq & Hl & Hs & _ & Hm & Htrace).
  exists rest. rewrite Htrace.
  injection Hq as <-. injection Hl as <-. injection Hs as <-.
  rewrite (Hm 5%Q eq_refl). reflexivity.
Defined.

Lemma search_digest_of_results_witness :
  exists w1 q l domain blocks,
    prop search_arguments "query" = Some (JStr q)
    /\ prop search_arguments "language" = Some (JStr l)
    /\ site_domain (prop search_arguments "siteId") = Some (JStr domain)
    /\ Forall2 (rendered_as integer_to_string domain l)
               [JObj [("content", JStr "First body"); ("url", JStr "/a")];
                JObj [("url", JStr "/b")];
                JObj [("title", JStr "Third"); ("url", JStr "/c")]]
               blocks
    /\ handleSearchDocumentation integer_to_string search_arguments
         (sample_context "search_documentation") world_three_results
       = (inr (text_response
                 (search_heading q 3 ++ join_nullable SEPARATOR blocks)),
          w1).
Proof.
  eexists.
  eapply (@search_digest_of_results integer_to_string search_arguments
            (sample_context "search_documentation") world_three_results).
  - reflexivity.
  - vm_compute. reflexivity.
  - reflexivity.
  - cbn. intros [H | [H | [H | []]]]; discriminate H.
  - cbn. intros result [<- | [<- | [<- | []]]]; reflexivity.
Defined.

Lemma search_unusable_answer_witness :
  fst (handleSearchDocumentation integer_to_string search_arguments
         (sample_context "search_documentation") world_empty_listing)
  = inr (text_response
           ("No documentation found for query " ++ DQUOTE ++ "checkout"
              ++ DQUOTE ++ ". Try a different search term."))
  /\ fst (handleSearchDocumentation integer_to_string
            search_arguments_odd_query
            (sample_context "search_documentation") world_empty_listing)
     = inr (mkToolResponse
              [mkText "text"
                      ("Error searching documentation: "
                         ++ "Cannot convert object to primitive value")]
              (Some true))
  /\ (exists envelope w1,
        handleSearchDocumentation integer_to_string search_arguments
          (sample_context "search_documentation") world_listing_object
        = (inr envelope, w1)
        /\ isError envelope = Some true)
  /\ (exists envelope w1,
        handleSearchDocumentation integer_to_string search_arguments
          (sample_context "search_documentation") world_odd_result
        = (inr envelope, w1)
        /\ isError envelope = Some true).
Proof.
  split; [| split; [| split]].
  - unshelve erewrite (proj1 (@search_unusable_answer integer_to_string
                                search_arguments
                                (sample_context "search_documentation")
                                world_empty_listing _ _ _)).
    all: try match goal with
             | |- api_get _ _ _ = _ => vm_compute; reflexivity
             end.
    all: reflexivity.
  - unshelve erewrite (proj1 (proj2 (@search_unusable_answer
                                integer_to_string
                                search_arguments_odd_query
                                (sample_context "search_documentation")
                                world_empty_listing _ _ _))).
    all: try match goal with
             | |- api_get _ _ _ = _ => vm_compute; reflexivity
             end.
    all: reflexivity.
  - edestruct (proj1 (proj2 (proj2
                 (@search_unusable_answer integer_to_string
                        search_arguments
                        (sample_context "search_documentation")
                        world_listing_object _ _
                        ltac:(vm_compute; reflexivity)))))
      as (envelope & Henvelope & Herror).
    + left. intros items. discriminate.
    + eauto.
  - edestruct (proj1 (proj2 (proj2 (proj2
                 (@search_unusable_answer integer_to_string
                        search_arguments
                        (sample_context "search_documentation")
                        world_odd_result _ _
                        ltac:(vm_compute; reflexivity)))))
                 [JObj [("title", JObj [("toString", JNum 1)]);
                        ("url", JStr "/a")]]
                 (JObj [("title", JObj [("toString", JNum 1)]);
                        ("url", JStr "/a")]))
      as (envelope & Henvelope & Herror).
    + reflexivity.
    + left. reflexivity.
    + reflexivity.
    + eauto.
Defined.


(** ** Tool calls across a retry *)

Lemma outcome_settle config1 config2 o :
  outcome (settle config1 o) = outcome (settle config2 o).
Proof.
  destruct o as [st body | message]; cbn; [| reflexivity].
  destruct (validateStatus st); reflexivity.
Qed.

(** The result of a call that is refused once and retried, against the
    result of the same call answered at once. *)
Lemma api_outcome_across_retry config w w' stale t refused o answers answers'
      grant grants :
  __isRetry config = false ->
  cached_token w = Some stale ->
  apiUpstream w = Responded 401 refused :: o :: answers ->
  authUpstream w = AuthGranted grant :: grants ->
  cached_token w' = Some t ->
  apiUpstream w' = o :: answers' ->
  is_401 o = false ->
  outcome (fst (api config w)) = outcome (fst (api config w')).
Proof.
  intros Hfresh Hc Hapi Hauth Hc' Hapi' Hnot.
  rewrite (api_two_passes config w), requestChain_eq.
  rewrite (getAccessToken_cached _ Hc), dispatchRequest_eq, Hapi.
  cbn [hd tl]. rewrite settle_401.
  unfold retryTarget. cbn [error_status error_config].
  cbn [Nat.eqb withAuthorization __isRetry]. rewrite Hfresh. cbn [negb andb].
  rewrite requestChain_eq, getAccessToken_empty by reflexivity.
  cbn [clearToken snd emit set_accessToken authUpstream accessToken
       requestCount apiUpstream trace].
  rewrite Hauth, dispatchRequest_eq.
  cbn [accessToken requestCount authUpstream apiUpstream trace hd tl fst].
  rewrite (api_two_passes config w'), requestChain_eq.
  rewrite (getAccessToken_cached _ Hc'), dispatchRequest_eq, Hapi'.
  cbn [hd tl].
  destruct (settle (withAuthorization t config) o) as [e | response] eqn:Hs.
  - rewrite (retryTarget_settle _ _ Hs), Hnot. cbn [andb fst].
    rewrite <- Hs. apply outcome_settle.
  - cbn [fst]. rewrite <- Hs. apply outcome_settle.
Qed.

Section AcrossRetry.

Variable number_to_string : Q -> string.

Lemma handleCreateCustomer_outcome args context context' w w' :
  outcome (fst (api_post "https://api.mercadopago.com/v1/customers"
                         (JObj (field "email" (get_optional args "email")))
                         w))
  = outcome (fst (api_post "https://api.mercadopago.com/v1/customers"
                           (JObj (field "email" (get_optional args "email")))
                           w')) ->
  fst (handleCreateCustomer number_to_string args context w)
  = fst (handleCreateCustomer number_to_string args context' w').
Proof.
  unfold handleCreateCustomer, try_catch, bind, lift, ret.
  destruct (api_post _ _ w) as [[e | r] w1];
    destruct (api_post _ _ w') as [[e' | r'] w1']; cbn [fst outcome];
    try discriminate; [reflexivity |].
  intros H. injection H as ->.
  destruct (get (Some (response_data r')) "user_id") as [e | user_id];
    [reflexivity |].
  destruct (template number_to_string user_id); reflexivity.
Qed.

Lemma handleDocumentTypes_outcome context context' w w' :
  outcome (fst (api_get
                  "https://api.mercadopago.com/v1/identification_types" [] w))
  = outcome (fst (api_get
                    "https://api.mercadopago.com/v1/identification_types" []
                    w')) ->
  fst (handleDocumentTypes number_to_string context w)
  = fst (handleDocumentTypes number_to_string context' w').
Proof.
  unfold handleDocumentTypes, try_catch, bind, lift, ret.
  destruct (api_get _ _ w) as [[e | r] w1];
    destruct (api_get _ _ w') as [[e' | r'] w1']; cbn [fst outcome];
    try discriminate; [reflexivity |].
  intros H. injection H as ->.
  destruct (data_map _ (response_data r')); reflexivity.
Qed.

Lemma handlePaymentsMethods_outcome context context' w w' :
  outcome (fst (api_get "https://api.mercadopago.com/v1/payment_methods" []
                        w))
  = outcome (fst (api_get "https://api.mercadopago.com/v1/payment_methods" []
                          w')) ->
  fst (handlePaymentsMethods number_to_string context w)
  = fst (handlePaymentsMethods number_to_string context' w').
Proof.
  unfold handlePaymentsMethods, try_catch, bind, lift, ret.
  destruct (api_get _ _ w) as [[e | r] w1];
    destruct (api_get _ _ w') as [[e' | r'] w1']; cbn [fst outcome];
    try discriminate; [reflexivity |].
  intros H. injection H as ->.
  destruct (data_map _ (response_data r')); reflexivity.
Qed.

Lemma handleSearchDocumentation_outcome args context context' w w' :
  outcome (fst (api_get "/docs/v1/search"
                  (field "term" (prop args "query")
                     ++ field "lang" (prop args "language")
                     ++ field "siteId" (prop args "siteId")
                     ++ field "maxResults"
                          (js_or (prop args "limit") (Some (JNum 10))))%list
                  w))
  = outcome (fst (api_get "/docs/v1/search"
                    (field "term" (prop args "query")
                       ++ field "lang" (prop args "language")
                       ++ field "siteId" (prop args "siteId")
                       ++ field "maxResults"
                            (js_or (prop args "limit") (Some (JNum 10))))%list
                    w')) ->
  fst (handleSearchDocumentation number_to_string args context w)
  = fst (handleSearchDocumentation number_to_string args context' w').
Proof.
  unfold handleSearchDocumentation, try_catch, bind, lift, ret, throw.
  destruct (api_get _ _ w) as [[e | r] w1];
    destruct (api_get _ _ w') as [[e' | r'] w1']; cbn [fst outcome];
    try discriminate.
  - intros H. injection H as ->. reflexivity.
  - intros H. injection H as ->.
    destruct (response_data r') as [| | | | [| item items] |];
      try reflexivity.
    + destruct (template number_to_string (prop args "query")); reflexivity.
    + destruct (map_throwing _ (item :: items)); [reflexivity |].
      destruct (template number_to_string (prop args "query")); reflexivity.
Qed.

(** X14.  The retry is invisible in the result of a tool call: a call whose
    first API request is answered 401 and whose re-issued request is
    answered with anything but a 401 returns the same envelope, or the same
    protocol error, as the same call under a valid token answered that way
    at once. *)
Theorem tool_result_across_retry
  (request : ToolRequest) (w w' : World) (stale t : string)
  (refused : Json) (o : HttpOutcome) (answers answers' : list HttpOutcome)
  (grant : AuthResponse) (grants : list AuthOutcome) :
  cached_token w = Some stale ->
  apiUpstream w = Responded 401 refused :: o :: answers ->
  authUpstream w = AuthGranted grant :: grants ->
  cached_token w' = Some t ->
  apiUpstream w' = o :: answers' ->
  is_401 o = false ->
  fst (callTool number_to_string request w)
  = fst (callTool number_to_string request w').
Proof.
  intros Hc Hapi Hauth Hc' Hapi' Hnot.
  assert (Hapi_eq : forall config,
             __isRetry config = false ->
             outcome (fst (api config (registered w)))
             = outcome (fst (api config (registered w')))).
  { intros config Hfresh.
    now apply (@api_outcome_across_retry config (registered w) (registered w')
                 stale t refused o answers answers' grant grants). }
  assert (Hcatch : forall (body body' : M ToolResponse) h h' v v',
             (exists a, fst (body v) = inr a) ->
             fst (body v) = fst (body' v') ->
             fst (try_catch body h v) = fst (try_catch body' h' v')).
  { intros body body' h h' v v' (a & Ha) Heq. unfold try_catch.
    rewrite Ha in Heq.
    destruct (body v) as [[e | b] v1]; [discriminate |].
    destruct (body' v') as [[e' | b'] v1']; [discriminate |].
    cbn in *. congruence. }
  unfold callTool, bind, createRequestContext.
  fold (registered w). fold (registered w').
  destruct (name request =? "search_documentation").
  { destruct (isSearchDocumentationArgs (arguments request)).
    - apply Hcatch; [apply handleSearchDocumentation_returns |].
      apply handleSearchDocumentation_outcome. now apply Hapi_eq.
    - reflexivity. }
  destruct (name request =? "payments_methods").
  { apply Hcatch; [apply handlePaymentsMethods_returns |].
    apply handlePaymentsMethods_outcome. now apply Hapi_eq. }
  destruct (name request =? "document_types").
  { apply Hcatch; [apply handleDocumentTypes_returns |].
    apply handleDocumentTypes_outcome. now apply Hapi_eq. }
  destruct (name request =? "create_customer").
  { apply Hcatch.
    - destruct (handleCreateCustomer_returns number_to_string
                  (arguments request)
                  (mkContext (name request)
                     ("req_" ++ string_of_nat (S (requestCount w))))
                  (registered w)) as (r & Hr & _). eauto.
    - apply handleCreateCustomer_outcome. now apply Hapi_eq. }
  reflexivity.
Qed.

End AcrossRetry.

Lemma tool_result_across_retry_witness :
  fst (callTool integer_to_string list_document_types world_401_then_200)
  = fst (callTool integer_to_string list_document_types world_empty_listing).
Proof.
  apply (@tool_result_across_retry integer_to_string list_document_types
           world_401_then_200 world_empty_listing "stale" "t" JNull
           (Responded 200 (JArr [])) [] []
           (mkAuthResponse "fresh" "bearer" 3600 "read") []);
    reflexivity.
Defined.


(** ** Upstream traffic *)

Lemma api_requests_app (a b : list Event) :
  api_requests (a ++ b) = api_requests a + api_requests b.
Proof. unfold api_requests. now rewrite filter_app, length_app. Qed.

Lemma token_clears_app (a b : list Event) :
  token_clears (a ++ b) = token_clears a + token_clears b.
Proof. unfold token_clears. now rewrite filter_app, length_app. Qed.

(** One pipeline call: at most two requests, two exchanges and one clear. *)
Lemma api_traffic config w :
  exists new,
    trace (snd (api config w)) = (trace w ++ new)%list
    /\ api_requests new <= 2
    /\ token_exchanges new <= 2
    /\ token_clears new <= 1.
Proof.
  rewrite api_two_passes.
  destruct (requestChain_events config w)
    as (acq & req & Htrace & Hacq & Hreq & _).
  assert (Hpass : api_requests (acq ++ req) <= 1
                  /\ token_exchanges (acq ++ req) <= 1
                  /\ token_clears (acq ++ req) = 0).
  { destruct Hacq as [-> | ->]; destruct Hreq as [-> | [t ->]];
      unfold api_requests, token_exchanges, token_clears; cbn;
      repeat split; lia. }
  destruct (requestChain config w) as [[e | response] w1] eqn:Hchain;
    cbn [snd] in *; [| exists (acq ++ req)%list; intuition lia].
  destruct (retryTarget e) as [c |] eqn:Hretry;
    [| exists (acq ++ req)%list; intuition lia].
  destruct (requestChain_events (markRetry c) (snd (clearToken w1)))
    as (acq2 & req2 & Htrace2 & Hacq2 & Hreq2 & _).
  assert (Hpass2 : api_requests (acq2 ++ req2) <= 1
                   /\ token_exchanges (acq2 ++ req2) <= 1
                   /\ token_clears (acq2 ++ req2) = 0).
  { destruct Hacq2 as [-> | ->]; destruct Hreq2 as [-> | [t ->]];
      unfold api_requests, token_exchanges, token_clears; cbn;
      repeat split; lia. }
  exists ((acq ++ req) ++ [EvTokenCleared] ++ (acq2 ++ req2))%list.
  split.
  - rewrite Htrace2. cbn [clearToken snd emit trace set_accessToken].
    rewrite Htrace. now rewrite <- !app_assoc.
  - rewrite !api_requests_app, !token_exchanges_app, !token_clears_app in *.
    change (api_requests [EvTokenCleared]) with 0.
    change (token_exchanges [EvTokenCleared]) with 0.
    change (token_clears [EvTokenCleared]) with 1.
    intuition lia.
Qed.

(** X15.  Upstream traffic is bounded by the number of tool calls: a
    sequence of calls sends at most two API requests and two token
    exchanges per call, and clears the token at most once per call. *)
Theorem traffic_is_bounded
  (number_to_string : Q -> string) (requests : list ToolRequest)
  (w : World) :
  exists new,
    trace (after_calls number_to_string requests w) = (trace w ++ new)%list
    /\ api_requests new <= 2 * List.length requests
    /\ token_exchanges new <= 2 * List.length requests
    /\ token_clears new <= List.length requests.
Proof.
  revert w. induction requests as [| request rest IH]; intros w.
  - exists []. cbn. rewrite app_nil_r. repeat split; lia.
  - cbn [after_calls fold_left].
    fold (after_calls number_to_string rest
            (snd (callTool number_to_string request w))).
    destruct (IH (snd (callTool number_to_string request w)))
      as (later & Hlater & Hrequests & Hexchanges & Hclears).
    assert (Hcall : exists new,
               trace (snd (callTool number_to_string request w))
               = (trace w ++ new)%list
               /\ api_requests new <= 2 /\ token_exchanges new <= 2
               /\ token_clears new <= 1).
    { destruct (callTool_world number_to_string request w)
        as [-> | (config & _ & ->)].
      - exists []. cbn. rewrite app_nil_r. repeat split; lia.
      - apply (api_traffic config (registered w)). }
    destruct Hcall as (new & Hnew & Hnr & Hne & Hnc).
    exists (new ++ later)%list. split.
    + rewrite Hlater, Hnew. now rewrite app_assoc.
    + rewrite api_requests_app, token_exchanges_app, token_clears_app.
      cbn [List.length]. lia.
Qed.
